(** * Cloud metadata probes of [elasticapm/utils/cloud.py]

    A shallow embedding of the four probes [aws_metadata], [gcp_metadata],
    [azure_metadata] and [azure_app_service_metadata], together with the
    parts of the Python runtime they touch: strings and their [split]
    family, dictionaries, exceptions with [try]/[except], sockets, the
    urllib3 pool and [os.environ].

    Conventions.
    - A Python [str] is a [string]; one [ascii] stands for one character.
    - A [bytes] object is only ever decoded as UTF-8, so it is represented
      by the outcome of that decoding ([utf8 text] or [invalid_utf8]).
    - A [float] is only ever printed or tested for truth, so it is
      represented by its [repr] text.
    - Timeouts are in milliseconds ([0.1] is [100], [1.0] is [1000]).
    - Every call that leaves the process (socket, HTTP, environment read) is
      answered by a [World] and recorded in a chronological [trace]. *)

From stdpp Require Import gmap strings list.
From Stdlib Require Import Ascii ZArith DecimalString.

Local Open Scope Z_scope.

(** ** Python values *)

(** What [json.loads] can produce, and what the probes put in the mappings
    they return.  Dictionaries keep insertion order, as Python's do; every
    dictionary of this module is keyed by strings. *)
#[warnings="-register-all"]
Inductive value : Type :=
| VNone
| VBool (b : bool)
| VInt (n : Z)
| VFloat (repr : string)
| VStr (s : string)
| VList (l : list value)
| VDict (d : list (string * value)).

Abbreviation dict := (list (string * value)).

(** [d.get(k)] *)
Fixpoint dict_get (k : string) (d : dict) : option value :=
  match d with
  | [] => None
  | (k', v) :: d' => if String.eqb k k' then Some v else dict_get k d'
  end.

(** [d[k] = v]: overwrite in place when the key is there, append otherwise. *)
Fixpoint dict_set (k : string) (v : value) (d : dict) : dict :=
  match d with
  | [] => [(k, v)]
  | (k', v') :: d' =>
      if String.eqb k k' then (k, v) :: d' else (k', v') :: dict_set k v d'
  end.

(** [d.pop(k)] on a key that is present (the only use in the source);
    the popped value is dropped by the caller. *)
Fixpoint dict_pop (k : string) (d : dict) : dict :=
  match d with
  | [] => []
  | (k', v') :: d' =>
      if String.eqb k k' then d' else (k', v') :: dict_pop k d'
  end.

(** [bool(v)] *)
Definition truthy (v : value) : bool :=
  match v with
  | VNone => false
  | VBool b => b
  | VInt n => negb (n =? 0)
  | VFloat r => negb (String.eqb r "0.0" || String.eqb r "-0.0")
  | VStr s => negb (String.eqb s "")
  | VList l => match l with [] => false | _ => true end
  | VDict d => match d with [] => false | _ => true end
  end.

(** ** Strings *)

Module Str.

(** [s.startswith(p)], returning what follows the prefix. *)
Fixpoint strip_prefix (p s : string) : option string :=
  match p, s with
  | EmptyString, _ => Some s
  | String a p', String b s' =>
      if Ascii.eqb a b then strip_prefix p' s' else None
  | String _ _, EmptyString => None
  end.

(** [sub in s] *)
Fixpoint contains (sub s : string) : bool :=
  match strip_prefix sub s with
  | Some _ => true
  | None =>
      match s with
      | EmptyString => false
      | String _ s' => contains sub s'
      end
  end.

(** [s.partition(sep)] when [sep] occurs: the text before and after the
    leftmost occurrence. *)
Fixpoint partition (sep s : string) : option (string * string) :=
  match strip_prefix sep s with
  | Some rest => Some (EmptyString, rest)
  | None =>
      match s with
      | EmptyString => None
      | String a s' =>
          match partition sep s' with
          | Some (b, r) => Some (String a b, r)
          | None => None
          end
      end
  end.

(** [s.rpartition(sep)] when [sep] occurs: the text before and after the
    rightmost occurrence. *)
Fixpoint rpartition (sep s : string) : option (string * string) :=
  match s with
  | EmptyString => None
  | String a s' =>
      match rpartition sep s' with
      | Some (b, r) => Some (String a b, r)
      | None =>
          match strip_prefix sep s with
          | Some rest => Some (EmptyString, rest)
          | None => None
          end
      end
  end.

(** [s.split(sep)] for a non-empty [sep]: cut at each occurrence, scanning
    from the left.  Every cut removes at least one character, so
    [String.length s] rounds are enough. *)
Fixpoint split_rounds (n : nat) (sep s : string) : list string :=
  match n with
  | O => [s]
  | S n' =>
      match partition sep s with
      | Some (b, r) => b :: split_rounds n' sep r
      | None => [s]
      end
  end.

Definition split (sep s : string) : list string :=
  split_rounds (String.length s) sep s.

(** [s.rsplit(sep, 1)] for a non-empty [sep]. *)
Definition rsplit1 (sep s : string) : list string :=
  match rpartition sep s with
  | Some (b, r) => [b; r]
  | None => [s]
  end.

(** [s[:-1]] *)
Fixpoint drop_last (s : string) : string :=
  match s with
  | EmptyString => EmptyString
  | String a s' =>
      match s' with
      | EmptyString => EmptyString
      | String _ _ => String a (drop_last s')
      end
  end.

(** [s.rstrip("/")] *)
Fixpoint rstrip_slash (s : string) : string :=
  match s with
  | EmptyString => EmptyString
  | String a s' =>
      match rstrip_slash s' with
      | EmptyString => if Ascii.eqb a "/"%char then EmptyString else String a EmptyString
      | r => String a r
      end
  end.

(** [posixpath.split(p)]: the head up to the last slash, with its trailing
    slashes removed unless it consists of slashes only, and the tail after
    that slash. *)
Definition os_path_split (p : string) : string * string :=
  match rpartition "/" p with
  | Some (b, tail) =>
      let head := b +:+ "/" in
      (match rstrip_slash head with
       | EmptyString => head
       | stripped => stripped
       end, tail)
  | None => (EmptyString, p)
  end.

(** [sep.join(l)] *)
Fixpoint join (sep : string) (l : list string) : string :=
  match l with
  | [] => EmptyString
  | [x] => x
  | x :: l' => x +:+ sep +:+ join sep l'
  end.

End Str.

(** ** [str(v)] and [repr(v)] *)

Definition hex_digit (n : N) : ascii :=
  ascii_of_N (if (n <? 10)%N then 48 + n else 87 + n)%N.

(** Characters that [repr] prints as they are: the printable ASCII range
    and the printable part of Latin-1. *)
Definition printable (c : ascii) : bool :=
  let n := N_of_ascii c in
  ((32 <=? n) && (n <=? 126) || (161 <=? n) && negb (n =? 173))%N.

Definition repr_char (quote c : ascii) : string :=
  if Ascii.eqb c "\"%char then "\\"
  else if Ascii.eqb c quote then String "\"%char (String c EmptyString)
  else if Ascii.eqb c "009"%char then "\t"
  else if Ascii.eqb c "010"%char then "\n"
  else if Ascii.eqb c "013"%char then "\r"
  else if printable c then String c EmptyString
  else
    let n := N_of_ascii c in
    String "\"%char (String "x"%char
      (String (hex_digit (n / 16)) (String (hex_digit (n mod 16)) EmptyString))).

Fixpoint repr_chars (quote : ascii) (s : string) : string :=
  match s with
  | EmptyString => EmptyString
  | String c s' => repr_char quote c +:+ repr_chars quote s'
  end.

(** [repr] of a [str]: single quotes, unless the text has a single quote
    and no double quote. *)
Definition str_repr (s : string) : string :=
  let dq := "034"%char in
  let quote :=
    if Str.contains "'" s && negb (Str.contains (String dq EmptyString) s)
    then dq else "'"%char in
  String quote (repr_chars quote s +:+ String quote EmptyString).

Fixpoint py_repr (v : value) : string :=
  match v with
  | VNone => "None"
  | VBool true => "True"
  | VBool false => "False"
  | VInt n => NilZero.string_of_int (Z.to_int n)
  | VFloat r => r
  | VStr s => str_repr s
  | VList l => "[" +:+ Str.join ", " (map py_repr l) +:+ "]"
  | VDict d =>
      "{" +:+ Str.join ", "
                (map (fun kv => match kv with
                                | (k, x) => str_repr k +:+ ": " +:+ py_repr x
                                end) d) +:+ "}"
  end.

Definition py_str (v : value) : string :=
  match v with
  | VStr s => s
  | _ => py_repr v
  end.

(** ** Exceptions *)

Inductive exn : Type :=
| OSError
    (** [socket.error] with its subclasses ([socket.timeout],
        [socket.gaierror], connection refused, ...) *)
| HTTPError (response : option Z)
    (** [urllib3.exceptions.HTTPError] and its subclasses; [response] is
        [e.response.status], [None] when [e] has no such attribute *)
| UnicodeDecodeError
| JSONDecodeError
| ValueError
| KeyError (key : string)
| IndexError
| TypeError
| AttributeError
| KeyboardInterrupt.

(** [isinstance(e, Exception)]: everything but the [BaseException]-only
    [KeyboardInterrupt]. *)
Definition is_Exception (e : exn) : bool :=
  match e with KeyboardInterrupt => false | _ => true end.

(** [isinstance(e, (socket.error, urllib3.exceptions.HTTPError))] *)
Definition is_socket_or_HTTPError (e : exn) : bool :=
  match e with OSError | HTTPError _ => true | _ => false end.

Definition is_HTTPError (e : exn) : bool :=
  match e with HTTPError _ => true | _ => false end.

(** ** The outside world *)

Inductive bytes : Type :=
| utf8 (text : string)
| invalid_utf8.

(** What the probes read of a response: its body.  They never look at the
    status of a response they were given; a request that fails does so by
    raising. *)
Record HTTPResponse : Type := { data : bytes }.

(** [urllib3.util.retry.Retry(total, backoff_factor, status_forcelist)] *)
Record Retry : Type :=
  { total : Z; backoff_factor : Z; status_forcelist : list Z }.

(** The [retries=] argument of one request: [False] or a policy. *)
Inductive retries_arg : Type :=
| retries_False
| retries_policy (r : Retry).

(** [urllib3.PoolManager(retries=...)]; [None] when built without
    arguments. *)
Record PoolManager : Type := { pool_retries : option Retry }.

(** One [http.request(method, url, headers=, timeout=, retries=)]; a field
    is [None] when the call does not pass it. *)
Record request : Type :=
  { req_method : string;
    req_url : string;
    req_headers : option (list (string * string));
    req_timeout : Z;
    req_retries : option retries_arg }.

(** The retry policy a request runs under: its own [retries=] argument,
    else the pool's. *)
Definition effective_retries (pool : PoolManager) (r : request) : option Retry :=
  match req_retries r with
  | Some retries_False => None
  | Some (retries_policy p) => Some p
  | None => pool_retries pool
  end.

Inductive event : Type :=
| EConnect (host : string) (port timeout_ms : Z)
| EGetAddrInfo (host : string) (port : Z)
| ERequest (pool : PoolManager) (r : request)
| EEnvGet (name : string).

Abbreviation trace := (list event).

(** What lies outside the module: the network, the JSON decoder and the
    process environment.  A socket call answers [None] when it succeeds and
    [Some e] when it raises [e].  An answer depends on the call alone: no
    probe makes the same call twice in a run. *)
Record World : Type :=
  { create_connection : string -> Z -> Z -> option exn;
    getaddrinfo : string -> Z -> option exn;
    urlopen : PoolManager -> request -> exn + HTTPResponse;
    json_decode : string -> option value;
    environ : gmap string string }.

(** ** Computations that may raise, over a trace of outside calls *)

Inductive outcome (A : Type) : Type :=
| Ret (a : A)
| Raise (e : exn).
Arguments Ret {A} a.
Arguments Raise {A} e.

Definition M (A : Type) : Type := trace -> outcome A * trace.

Definition ret {A} (a : A) : M A := fun t => (Ret a, t).

Definition raise {A} (e : exn) : M A := fun t => (Raise e, t).

Definition bind {A B} (m : M A) (k : A -> M B) : M B :=
  fun t =>
    match m t with
    | (Ret a, t') => k a t'
    | (Raise e, t') => (Raise e, t')
    end.

Notation "x <- m ;; k" := (bind m (fun x => k))
  (at level 20, m at level 99, k at level 200,
   format "'[v' x  <-  m  ;; '/' k ']'").

(** [try: body  except ...: handler]; a handler re-raises what its
    [except] clause does not match. *)
Definition try_except {A} (body : M A) (handler : exn -> M A) : M A :=
  fun t =>
    match body t with
    | (Ret a, t') => (Ret a, t')
    | (Raise e, t') => handler e t'
    end.

Definition emit (ev : event) : M unit := fun t => (Ret tt, t ++ [ev]).

Definition of_option {A} (e : exn) (o : option A) : M A :=
  match o with
  | Some a => ret a
  | None => raise e
  end.

(** ** Runtime calls used by the probes *)

(** [with socket.create_connection((host, port), timeout): pass] *)
Definition socket_create_connection (w : World) (host : string) (port timeout_ms : Z)
  : M unit :=
  _ <- emit (EConnect host port timeout_ms) ;;
  match create_connection w host port timeout_ms with
  | Some e => raise e
  | None => ret tt
  end.

(** [socket.getaddrinfo(host, port, 0, socket.SOCK_STREAM)] *)
Definition socket_getaddrinfo (w : World) (host : string) (port : Z) : M unit :=
  _ <- emit (EGetAddrInfo host port) ;;
  match getaddrinfo w host port with
  | Some e => raise e
  | None => ret tt
  end.

(** [pool.request(...)] *)
Definition http_request (w : World) (pool : PoolManager) (r : request)
  : M HTTPResponse :=
  _ <- emit (ERequest pool r) ;;
  match urlopen w pool r with
  | inl e => raise e
  | inr response => ret response
  end.

(** [b.decode("utf-8")] *)
Definition decode (b : bytes) : M string :=
  match b with
  | utf8 text => ret text
  | invalid_utf8 => raise UnicodeDecodeError
  end.

(** [json.loads(text)] *)
Definition json_loads (w : World) (text : string) : M value :=
  of_option JSONDecodeError (json_decode w text).

(** [os.environ.get(name)] *)
Definition os_environ_get (w : World) (name : string) : M (option string) :=
  _ <- emit (EEnvGet name) ;;
  ret (environ w !! name).

(** What [os.environ.get] returned, as a Python value. *)
Definition opt_value (o : option string) : value :=
  match o with
  | Some s => VStr s
  | None => VNone
  end.

(** [obj[key]] for a string key: only a dictionary can be subscripted by
    one. *)
Definition getitem (obj : value) (key : string) : M value :=
  match obj with
  | VDict d => of_option (KeyError key) (dict_get key d)
  | _ => raise TypeError
  end.

(** [l[i]], negative indices counting from the end. *)
Definition py_index {A} (l : list A) (i : Z) : M A :=
  let n := Z.of_nat (length l) in
  let j := if i <? 0 then n + i else i in
  if (0 <=? j) && (j <? n) then of_option IndexError (l !! Z.to_nat j)
  else raise IndexError.

(** [a, b = l] *)
Definition unpack2 {A} (l : list A) : M (A * A) :=
  match l with
  | [a; b] => ret (a, b)
  | _ => raise ValueError
  end.

(** [v.split(sep)]: only a [str] has the method; an empty separator is a
    [ValueError]. *)
Definition method_split (v : value) (sep : string) : M (list string) :=
  match v with
  | VStr s => if String.eqb sep "" then raise ValueError else ret (Str.split sep s)
  | _ => raise AttributeError
  end.

(** [v.rsplit(sep, 1)] *)
Definition method_rsplit1 (v : value) (sep : string) : M (list string) :=
  match v with
  | VStr s => if String.eqb sep "" then raise ValueError else ret (Str.rsplit1 sep s)
  | _ => raise AttributeError
  end.

(** [sub in v] for what [os.environ.get] returns: [None] is not iterable. *)
Definition str_in (sub : string) (v : option string) : M bool :=
  match v with
  | Some s => ret (Str.contains sub s)
  | None => raise TypeError
  end.

(** [os.path.split(v)] *)
Definition os_path_split (v : value) : M (string * string) :=
  match v with
  | VStr p => ret (Str.os_path_split p)
  | _ => raise TypeError
  end.

(** [e.response.status] *)
Definition response_status (e : exn) : M Z :=
  match e with
  | HTTPError (Some status) => ret status
  | _ => raise AttributeError
  end.

(** ** [aws_metadata] *)

Module aws.

Definition V1_URL : string := "http://169.254.169.254/latest/meta-data/".
Definition V2_TOKEN_URL : string := "http://169.254.169.254/latest/api/token".
Definition TOKEN_HEADERS : list (string * string) :=
  [("X-aws-ec2-metadata-token-ttl-seconds", "300")].

Definition retries : Retry :=
  {| total := 5; backoff_factor := 1; status_forcelist := [401] |}.
Definition http : PoolManager := {| pool_retries := Some retries |}.

Definition fetch_metadata (w : World) (path : string)
    (headers : option (list (string * string))) : M string :=
  let url := V1_URL +:+ path in
  response <- http_request w http
                {| req_method := "GET"; req_url := url; req_headers := headers;
                   req_timeout := 1000; req_retries := Some retries_False |} ;;
  data <- decode (data response) ;;
  ret data.

(** The inner [try] block (IMDSv2), giving the value of [metadata] when
    the block completes. *)
Definition imdsv2 (w : World) : M dict :=
  token_request <- http_request w http
                     {| req_method := "PUT"; req_url := V2_TOKEN_URL;
                        req_headers := Some TOKEN_HEADERS;
                        req_timeout := 1000; req_retries := None |} ;;
  token <- decode (data token_request) ;;
  let aws_token_header :=
    if truthy (VStr token) then [("X-aws-ec2-metadata-token", token)] else [] in
  text <- fetch_metadata w "dynamic/instance-identity/document"
            (Some aws_token_header) ;;
  metadata <- json_loads w text ;;
  accountId <- getitem metadata "accountId" ;;
  instanceId <- getitem metadata "instanceId" ;;
  availabilityZone <- getitem metadata "availabilityZone" ;;
  instanceType <- getitem metadata "instanceType" ;;
  region <- getitem metadata "region" ;;
  ret [("account", VDict [("id", accountId)]);
       ("instance", VDict [("id", instanceId)]);
       ("availability_zone", availabilityZone);
       ("machine", VDict [("type", instanceType)]);
       ("provider", VStr "aws");
       ("region", region)].

(** The inner [except urllib3.exceptions.HTTPError as e] clause (IMDSv1),
    giving the value of [metadata] after it.  When the status is not 401
    nothing is assigned and [metadata] keeps the [{}] it had before the
    [try]: an [HTTPError] can only come from one of the two requests of
    [imdsv2], both issued before [metadata] is assigned there. *)
Definition imdsv1 (w : World) (e : exn) : M dict :=
  if is_HTTPError e then
    status <- response_status e ;;
    if status =? 401 then
      account_id <- fetch_metadata w "iam/info" None ;;
      instance_id <- fetch_metadata w "instance-id" None ;;
      instance_type <- fetch_metadata w "instance-type" None ;;
      availability_zone <- fetch_metadata w "placement/availability-zone" None ;;
      ret [("accountId", VStr account_id);
           ("instanceId", VStr instance_id);
           ("instanceType", VStr instance_type);
           ("availabilityZone", VStr availability_zone);
           ("region", VStr (Str.drop_last availability_zone))]
    else ret []
  else raise e.

End aws.

Definition aws_metadata (w : World) : M dict :=
  try_except
    (_ <- socket_create_connection w "169.254.169.254" 80 100 ;;
     metadata <- try_except (aws.imdsv2 w) (aws.imdsv1 w) ;;
     ret metadata)
    (fun e => if is_socket_or_HTTPError e then ret [] else raise e).

(** ** [gcp_metadata] *)

Module gcp.

Definition headers : list (string * string) := [("Metadata-Flavor", "Google")].
Definition http : PoolManager := {| pool_retries := None |}.

(** The [try] block. *)
Definition probe (w : World) : M dict :=
  _ <- socket_getaddrinfo w "metadata.google.internal" 80 ;;
  response <- http_request w http
                {| req_method := "GET";
                   req_url := "http://metadata.google.internal/computeMetadata/v1/?recursive=true";
                   req_headers := Some headers;
                   req_timeout := 1000; req_retries := Some retries_False |} ;;
  text <- decode (data response) ;;
  metadata <- json_loads w text ;;
  instance <- getitem metadata "instance" ;;
  zone <- getitem instance "zone" ;;
  head_tail <- os_path_split zone ;;
  let availability_zone := snd head_tail in
  instance <- getitem metadata "instance" ;;
  id <- getitem instance "id" ;;
  instance <- getitem metadata "instance" ;;
  name <- getitem instance "name" ;;
  project <- getitem metadata "project" ;;
  projectId <- getitem project "projectId" ;;
  parts <- method_rsplit1 (VStr availability_zone) "-" ;;
  region <- py_index parts 0 ;;
  instance <- getitem metadata "instance" ;;
  machineType <- getitem instance "machineType" ;;
  segments <- method_split machineType "/" ;;
  machine_type <- py_index segments (-1) ;;
  ret [("provider", VStr "gcp");
       ("instance", VDict [("id", VStr (py_str id)); ("name", name)]);
       ("project", VDict [("id", projectId)]);
       ("availability_zone", VStr availability_zone);
       ("region", VStr region);
       ("machine", VDict [("type", VStr machine_type)])].

End gcp.

Definition gcp_metadata (w : World) : M dict :=
  try_except (gcp.probe w)
    (fun e => if is_Exception e then ret [] else raise e).

(** ** [azure_app_service_metadata] *)

Module app_service.

(** The [try] block, giving [ret] as it stands when the block
    completes. *)
Definition parse_owner_name (ret0 : dict) (website_owner_name : option string)
  : M dict :=
  parts <- method_split (opt_value website_owner_name) "+" ;;
  pair <- unpack2 parts ;;
  let account_id := fst pair in
  let website_owner_name := snd pair in
  let ret1 := dict_set "account" (VDict [("id", VStr account_id)]) ret0 in
  parts <- method_split (VStr website_owner_name) "webspace" ;;
  pair <- unpack2 parts ;;
  let region := fst pair in
  parts <- method_rsplit1 (VStr region) "-" ;;
  region <- py_index parts 1 ;;
  ret (dict_set "region" (VStr region) ret1).

End app_service.

Definition azure_app_service_metadata (w : World) : M dict :=
  let ret0 : dict := [("provider", VStr "azure")] in
  website_owner_name <- os_environ_get w "WEBSITE_OWNER_NAME" ;;
  website_instance_id <- os_environ_get w "WEBSITE_INSTANCE_ID" ;;
  website_site_name <- os_environ_get w "WEBSITE_SITE_NAME" ;;
  website_resource_group <- os_environ_get w "WEBSITE_RESOURCE_GROUP" ;;
  if negb (forallb truthy (map opt_value
             [website_owner_name; website_instance_id;
              website_site_name; website_resource_group]))
  then ret []
  else
    has_plus <- str_in "+" website_owner_name ;;
    if negb has_plus then ret []
    else
      parsed <- try_except
                  (ret1 <- app_service.parse_owner_name ret0 website_owner_name ;;
                   ret (Some ret1))
                  (fun e => if is_Exception e then ret None else raise e) ;;
      match parsed with
      | None => ret []
      | Some ret1 =>
          let ret2 :=
            dict_set "instance"
              (VDict [("id", opt_value website_instance_id);
                      ("name", opt_value website_site_name)]) ret1 in
          let ret3 :=
            dict_set "project"
              (VDict [("name", opt_value website_resource_group)]) ret2 in
          ret ret3
      end.

(** ** [azure_metadata] *)

Module azure.

Definition headers : list (string * string) := [("Metadata", "true")].
Definition http : PoolManager := {| pool_retries := None |}.

(** The [try] block. *)
Definition probe (w : World) : M dict :=
  _ <- socket_create_connection w "169.254.169.254" 80 100 ;;
  response <- http_request w http
                {| req_method := "GET";
                   req_url := "http://169.254.169.254/metadata/instance/compute?api-version=2019-08-15";
                   req_headers := Some headers;
                   req_timeout := 1000; req_retries := Some retries_False |} ;;
  text <- decode (data response) ;;
  metadata <- json_loads w text ;;
  subscriptionId <- getitem metadata "subscriptionId" ;;
  vmId <- getitem metadata "vmId" ;;
  name <- getitem metadata "name" ;;
  resourceGroupName <- getitem metadata "resourceGroupName" ;;
  zone <- getitem metadata "zone" ;;
  vmSize <- getitem metadata "vmSize" ;;
  location <- getitem metadata "location" ;;
  let ret0 : dict :=
    [("account", VDict [("id", subscriptionId)]);
     ("instance", VDict [("id", vmId); ("name", name)]);
     ("project", VDict [("name", resourceGroupName)]);
     ("availability_zone", zone);
     ("machine", VDict [("type", vmSize)]);
     ("provider", VStr "azure");
     ("region", location)] in
  availability_zone <- getitem (VDict ret0) "availability_zone" ;;
  if negb (truthy availability_zone)
  then ret (dict_pop "availability_zone" ret0)
  else ret ret0.

End azure.

Definition azure_metadata (w : World) : M dict :=
  try_except (azure.probe w)
    (fun e => if is_Exception e then azure_app_service_metadata w else raise e).

(** ** A JSON decoder to run the probes on concrete documents

    The theorems below hold for any decoder a [World] carries.  This one
    reads the JSON texts of the examples: objects, arrays, strings with
    their escapes below U+0100, integers and the three literals.  It
    rejects numbers with a fraction or an exponent.  A repeated key keeps
    its last value, as in Python. *)

Module Json.

Definition dq : ascii := "034"%char.

Definition is_ws (c : ascii) : bool :=
  Ascii.eqb c " "%char || Ascii.eqb c "009"%char
  || Ascii.eqb c "010"%char || Ascii.eqb c "013"%char.

Fixpoint skip_ws (s : string) : string :=
  match s with
  | String c s' => if is_ws c then skip_ws s' else s
  | EmptyString => s
  end.

Definition digit (c : ascii) : option Z :=
  let n := N_of_ascii c in
  if ((48 <=? n) && (n <=? 57))%N then Some (Z.of_N n - 48) else None.

Definition hex (c : ascii) : option N :=
  let n := N_of_ascii c in
  if ((48 <=? n) && (n <=? 57))%N then Some (n - 48)%N
  else if ((97 <=? n) && (n <=? 102))%N then Some (n - 87)%N
  else if ((65 <=? n) && (n <=? 70))%N then Some (n - 55)%N
  else None.

(** Digits at the head of [s], accumulated into [acc]. *)
Fixpoint digits (acc : Z) (s : string) : Z * string :=
  match s with
  | String c s' =>
      match digit c with
      | Some d => digits (10 * acc + d) s'
      | None => (acc, s)
      end
  | EmptyString => (acc, s)
  end.

Definition starts_fraction (s : string) : bool :=
  match s with
  | String c _ =>
      Ascii.eqb c "."%char || Ascii.eqb c "e"%char || Ascii.eqb c "E"%char
  | EmptyString => false
  end.

(** An integer without its sign: [0], or digits not starting with [0]. *)
Definition natural (s : string) : option (Z * string) :=
  match s with
  | String c s' =>
      match digit c with
      | Some 0 => if starts_fraction s' then None else Some (0, s')
      | Some d =>
          let '(n, rest) := digits d s' in
          if starts_fraction rest then None else Some (n, rest)
      | None => None
      end
  | EmptyString => None
  end.

Definition escape (c : ascii) : option ascii :=
  if Ascii.eqb c dq then Some dq
  else if Ascii.eqb c "\"%char then Some "\"%char
  else if Ascii.eqb c "/"%char then Some "/"%char
  else if Ascii.eqb c "b"%char then Some "008"%char
  else if Ascii.eqb c "f"%char then Some "012"%char
  else if Ascii.eqb c "n"%char then Some "010"%char
  else if Ascii.eqb c "r"%char then Some "013"%char
  else if Ascii.eqb c "t"%char then Some "009"%char
  else None.

(** The characters of a string literal after its opening quote, and what
    follows the closing quote. *)
Fixpoint chars (s : string) : option (string * string) :=
  match s with
  | EmptyString => None
  | String c s' =>
      if Ascii.eqb c dq then Some (EmptyString, s')
      else if Ascii.eqb c "\"%char then
        match s' with
        | String "u" (String h1 (String h2 (String h3 (String h4 s'')))) =>
            match hex h1, hex h2, hex h3, hex h4 with
            | Some 0%N, Some 0%N, Some a, Some b =>
                match chars s'' with
                | Some (text, rest) =>
                    Some (String (ascii_of_N (16 * a + b)) text, rest)
                | None => None
                end
            | _, _, _, _ => None
            end
        | String e s'' =>
            match escape e, chars s'' with
            | Some x, Some (text, rest) => Some (String x text, rest)
            | _, _ => None
            end
        | EmptyString => None
        end
      else if (N_of_ascii c <? 32)%N then None
      else
        match chars s' with
        | Some (text, rest) => Some (String c text, rest)
        | None => None
        end
  end.

Fixpoint parse_value (fuel : nat) (s : string) : option (value * string) :=
  match fuel with
  | O => None
  | S fuel' =>
      match skip_ws s with
      | EmptyString => None
      | String c s' =>
          if Ascii.eqb c dq then
            match chars s' with
            | Some (text, rest) => Some (VStr text, rest)
            | None => None
            end
          else if Ascii.eqb c "["%char then
            match skip_ws s' with
            | String "]" rest => Some (VList [], rest)
            | _ =>
                match parse_elements fuel' s' with
                | Some (l, rest) => Some (VList l, rest)
                | None => None
                end
            end
          else if Ascii.eqb c "{"%char then
            match skip_ws s' with
            | String "}" rest => Some (VDict [], rest)
            | _ =>
                match parse_members fuel' [] s' with
                | Some (d, rest) => Some (VDict d, rest)
                | None => None
                end
            end
          else if Ascii.eqb c "-"%char then
            match natural s' with
            | Some (n, rest) => Some (VInt (- n), rest)
            | None => None
            end
          else
            match natural (String c s') with
            | Some (n, rest) => Some (VInt n, rest)
            | None =>
                match Str.strip_prefix "null" (String c s') with
                | Some rest => Some (VNone, rest)
                | None =>
                match Str.strip_prefix "true" (String c s') with
                | Some rest => Some (VBool true, rest)
                | None =>
                match Str.strip_prefix "false" (String c s') with
                | Some rest => Some (VBool false, rest)
                | None => None
                end end end
            end
      end
  end

(** The elements of an array after [[] or [,], up to its []]. *)
with parse_elements (fuel : nat) (s : string) : option (list value * string) :=
  match fuel with
  | O => None
  | S fuel' =>
      match parse_value fuel' s with
      | Some (v, rest) =>
          match skip_ws rest with
          | String "," rest' =>
              match parse_elements fuel' rest' with
              | Some (l, rest'') => Some (v :: l, rest'')
              | None => None
              end
          | String "]" rest' => Some ([v], rest')
          | _ => None
          end
      | None => None
      end
  end

(** The members of an object after [{] or [,], up to its [}], added to
    the dictionary [d] read so far. *)
with parse_members (fuel : nat) (d : dict) (s : string) : option (dict * string) :=
  match fuel with
  | O => None
  | S fuel' =>
      match skip_ws s with
      | String c s' =>
          if Ascii.eqb c dq then
            match chars s' with
            | Some (key, rest) =>
                match skip_ws rest with
                | String ":" rest' =>
                    match parse_value fuel' rest' with
                    | Some (v, rest'') =>
                        match skip_ws rest'' with
                        | String "," r => parse_members fuel' (dict_set key v d) r
                        | String "}" r => Some (dict_set key v d, r)
                        | _ => None
                        end
                    | None => None
                    end
                | _ => None
                end
            | None => None
            end
          else None
      | EmptyString => None
      end
  end.

Definition loads (s : string) : option value :=
  match parse_value (2 * String.length s + 2) s with
  | Some (v, rest) =>
      match skip_ws rest with
      | EmptyString => Some v
      | String _ _ => None
      end
  | None => None
  end.

End Json.

(** ** The requests and reads the probes issue *)

Definition aws_token_request : request :=
  {| req_method := "PUT"; req_url := aws.V2_TOKEN_URL;
     req_headers := Some aws.TOKEN_HEADERS;
     req_timeout := 1000; req_retries := None |}.

Definition aws_get (path : string) (headers : option (list (string * string)))
  : request :=
  {| req_method := "GET"; req_url := aws.V1_URL +:+ path; req_headers := headers;
     req_timeout := 1000; req_retries := Some retries_False |}.

Definition aws_document_request (token : string) : request :=
  aws_get "dynamic/instance-identity/document"
    (Some (if truthy (VStr token) then [("X-aws-ec2-metadata-token", token)] else [])).


Definition gcp_request : request :=
  {| req_method := "GET";
     req_url := "http://metadata.google.internal/computeMetadata/v1/?recursive=true";
     req_headers := Some gcp.headers;
     req_timeout := 1000; req_retries := Some retries_False |}.

Definition azure_request : request :=
  {| req_method := "GET";
     req_url := "http://169.254.169.254/metadata/instance/compute?api-version=2019-08-15";
     req_headers := Some azure.headers;
     req_timeout := 1000; req_retries := Some retries_False |}.

Definition WEBSITE_VARIABLES : list string :=
  ["WEBSITE_OWNER_NAME"; "WEBSITE_INSTANCE_ID";
   "WEBSITE_SITE_NAME"; "WEBSITE_RESOURCE_GROUP"].

(** The environment reads of [azure_app_service_metadata]. *)
Definition environment_reads : trace := map EEnvGet WEBSITE_VARIABLES.

(** ** The shape of a returned mapping (spec, section 3) *)

Definition has_provider (m : dict) : bool :=
  match dict_get "provider" m with
  | Some (VStr p) => String.eqb p "aws" || String.eqb p "gcp" || String.eqb p "azure"
  | _ => false
  end.

Definition has_region (m : dict) : bool :=
  match dict_get "region" m with
  | Some _ => true
  | None => false
  end.

Definition has_instance_id (m : dict) : bool :=
  match dict_get "instance" m with
  | Some (VDict instance) =>
      match dict_get "id" instance with
      | Some _ => true
      | None => false
      end
  | _ => false
  end.

(** Empty, or with at least [provider], [region] and [instance.id]. *)
Definition cloud_metadata_shape (m : dict) : bool :=
  match m with
  | [] => true
  | _ => has_provider m && has_region m && has_instance_id m
  end.

(** ** Reading the spec's words on strings *)

(** [seg] is the last [c]-separated segment of [s]. *)
Definition last_segment (c : ascii) (s seg : string) : Prop :=
  Str.contains (String c "") seg = false /\
  (s = seg \/ exists before, s = before +:+ String c seg).

(** [r] is [s] without its trailing [c]-introduced segment; [s] itself
    when it has none. *)
Definition without_last_segment (c : ascii) (s r : string) : Prop :=
  (exists suffix, s = r +:+ String c suffix /\
                  Str.contains (String c "") suffix = false)
  \/ (s = r /\ Str.contains (String c "") s = false).

(** An environment in which the App Service probe must not detect
    anything (spec, section 4.4). *)
Inductive undetectable (env : gmap string string) : Prop :=
| variable_unset name :
    name ∈ WEBSITE_VARIABLES -> env !! name = None -> undetectable env
| variable_empty name :
    name ∈ WEBSITE_VARIABLES -> env !! name = Some "" -> undetectable env
| plus_absent owner :
    env !! "WEBSITE_OWNER_NAME" = Some owner ->
    Str.contains "+" owner = false -> undetectable env
| webspace_missing account rest :
    env !! "WEBSITE_OWNER_NAME" = Some (account +:+ "+" +:+ rest) ->
    Str.contains "webspace" rest = false -> undetectable env
| dash_missing account prefix suffix :
    env !! "WEBSITE_OWNER_NAME"
      = Some (account +:+ "+" +:+ prefix +:+ "webspace" +:+ suffix) ->
    Str.contains "-" prefix = false -> undetectable env.

(** The four variables are set and non-empty, [WEBSITE_OWNER_NAME] to
    [owner]. *)
Definition website_variables_set (env : gmap string string) (owner : string)
  : Prop :=
  env !! "WEBSITE_OWNER_NAME" = Some owner /\
  forall name, name ∈ WEBSITE_VARIABLES ->
               exists v, env !! name = Some v /\ v <> "".

(** The parse of [WEBSITE_OWNER_NAME] as section 4.4 of the spec words it:
    split once on [+], split the remainder once on [webspace], take what
    follows the last [-] of the prefix.  It gives the account id and the
    region. *)
Definition owner_name_split_once (owner : string) : option (string * string) :=
  match Str.partition "+" owner with
  | Some (account_id, remainder) =>
      match Str.partition "webspace" remainder with
      | Some (prefix, _) =>
          match Str.rpartition "-" prefix with
          | Some (_, region) => Some (account_id, region)
          | None => None
          end
      | None => None
      end
  | None => None
  end.

(** ** Example worlds *)

(** A JSON text written with apostrophes for its double quotes. *)
Fixpoint json_text (s : string) : string :=
  match s with
  | EmptyString => EmptyString
  | String c s' =>
      String (if Ascii.eqb c "'"%char then Json.dq else c) (json_text s')
  end.

Definition body (text : string) : exn + HTTPResponse :=
  inr {| data := utf8 text |}.

(** A server that answers by URL; an unknown URL cannot be fetched. *)
Fixpoint served (table : list (string * (exn + HTTPResponse))) (r : request)
  : exn + HTTPResponse :=
  match table with
  | [] => inl (HTTPError None)
  | (u, reply) :: table' =>
      if String.eqb (req_url r) u then reply else served table' r
  end.

Definition example_world (connect resolve : option exn)
    (table : list (string * (exn + HTTPResponse)))
    (env : list (string * string)) : World :=
  {| create_connection := fun _ _ _ => connect;
     getaddrinfo := fun _ _ => resolve;
     urlopen := fun _ r => served table r;
     json_decode := Json.loads;
     environ := list_to_map env |}.

(** No metadata service, no App Service variables. *)
Definition offline_world : World :=
  example_world (Some OSError) (Some OSError) [] [].

Definition aws_flat_fields : list (string * (exn + HTTPResponse)) :=
  [(aws.V1_URL +:+ "iam/info", body "123456789012");
   (aws.V1_URL +:+ "instance-id", body "i-0abc");
   (aws.V1_URL +:+ "instance-type", body "t3.micro");
   (aws.V1_URL +:+ "placement/availability-zone", body "us-east-1a")].

Definition aws_document_url : string :=
  aws.V1_URL +:+ "dynamic/instance-identity/document".

(** IMDSv2 answers with a full identity document. *)
Definition aws_imdsv2_world : World :=
  example_world None None
    [(aws.V2_TOKEN_URL, body "token");
     (aws_document_url,
      body (json_text "{'accountId': '123456789012', 'instanceId': 'i-0abc', 'availabilityZone': 'us-east-1a', 'instanceType': 't3.micro', 'region': 'us-east-1'}"))]
    [].

(** The identity document is not JSON. *)
Definition aws_malformed_document_world : World :=
  example_world None None
    [(aws.V2_TOKEN_URL, body "token"); (aws_document_url, body "not json")]
    [].

(** The identity document is JSON but lacks [region]. *)
Definition aws_incomplete_document_world : World :=
  example_world None None
    [(aws.V2_TOKEN_URL, body "token");
     (aws_document_url,
      body (json_text "{'accountId': '123456789012', 'instanceId': 'i-0abc', 'availabilityZone': 'us-east-1a', 'instanceType': 't3.micro'}"))]
    [].

(** The token is granted, the identity document is refused with 401 and the
    flat fields are served. *)
Definition aws_imdsv1_world : World :=
  example_world None None
    ((aws.V2_TOKEN_URL, body "token")
     :: (aws_document_url, inl (HTTPError (Some 401)))
     :: aws_flat_fields)
    [].

Definition gcp_world : World :=
  example_world None None
    [("http://metadata.google.internal/computeMetadata/v1/?recursive=true",
      body (json_text "{'instance': {'id': 4520031799277581759, 'name': 'vm-1', 'zone': 'projects/513326162531/zones/us-central1-a', 'machineType': 'projects/513326162531/machineTypes/n1-standard-1'}, 'project': {'projectId': 'my-project', 'numericProjectId': 513326162531}}"))]
    [].

(** Azure answers with an empty [zone]. *)
Definition azure_world : World :=
  example_world None None
    [("http://169.254.169.254/metadata/instance/compute?api-version=2019-08-15",
      body (json_text "{'location': 'westus2', 'name': 'vm-1', 'resourceGroupName': 'rg1', 'subscriptionId': 'sub123', 'vmId': 'e11ebedc', 'vmSize': 'Standard_D2s_v3', 'zone': ''}"))]
    [].

Definition app_service_world (owner : string) : World :=
  example_world (Some OSError) (Some OSError) []
    [("WEBSITE_OWNER_NAME", owner);
     ("WEBSITE_INSTANCE_ID", "5f3c");
     ("WEBSITE_SITE_NAME", "my-site");
     ("WEBSITE_RESOURCE_GROUP", "rg1")].

(** ** Reading the spec's words on requests and failures *)

(** How the AWS probe issues a request: one second of timeout; a [GET]
    with retries switched off, the token [PUT] under the pool's policy. *)
Definition aws_request_policy (ev : event) : Prop :=
  match ev with
  | ERequest pool r =>
      pool = aws.http /\ req_timeout r = 1000 /\
      ((req_method r = "GET" /\ req_retries r = Some retries_False
        /\ effective_retries pool r = None)
       \/ (r = aws_token_request
           /\ effective_retries pool r
              = Some {| total := 5; backoff_factor := 1;
                        status_forcelist := [401] |}))
  | _ => True
  end.


(** The keys [azure_metadata] reads from the document. *)
Definition azure_keys : list string :=
  ["subscriptionId"; "vmId"; "name"; "resourceGroupName"; "zone"; "vmSize";
   "location"].

(** The failures of the Azure probe (spec, sections 4.3 and 7), each with
    the outside calls made up to it: the connection fails; the request
    fails (HTTP error, timeout); the body is not UTF-8; the text is not
    JSON; the document is not an object with the seven keys. *)
Inductive azure_failure (w : World) : trace -> Prop :=
| azure_connect_failure e :
    create_connection w "169.254.169.254" 80 100 = Some e ->
    is_Exception e = true ->
    azure_failure w [EConnect "169.254.169.254" 80 100]
| azure_request_failure e :
    create_connection w "169.254.169.254" 80 100 = None ->
    urlopen w azure.http azure_request = inl e ->
    is_Exception e = true ->
    azure_failure w [EConnect "169.254.169.254" 80 100;
                     ERequest azure.http azure_request]
| azure_decode_failure :
    create_connection w "169.254.169.254" 80 100 = None ->
    urlopen w azure.http azure_request = inr {| data := invalid_utf8 |} ->
    azure_failure w [EConnect "169.254.169.254" 80 100;
                     ERequest azure.http azure_request]
| azure_json_failure text :
    create_connection w "169.254.169.254" 80 100 = None ->
    urlopen w azure.http azure_request = body text ->
    json_decode w text = None ->
    azure_failure w [EConnect "169.254.169.254" 80 100;
                     ERequest azure.http azure_request]
| azure_document_failure text doc :
    create_connection w "169.254.169.254" 80 100 = None ->
    urlopen w azure.http azure_request = body text ->
    json_decode w text = Some doc ->
    (forall d, doc = VDict d ->
               exists key, key ∈ azure_keys /\ dict_get key d = None) ->
    azure_failure w [EConnect "169.254.169.254" 80 100;
                     ERequest azure.http azure_request].

(** The link-local endpoint is unreachable and the App Service variables
    are set. *)
Definition azure_app_service_host : World :=
  app_service_world "sub123+rg1-westus2webspace9f8".

(** ** Events a computation appends to the trace *)

(** Whatever the trace [m] starts from, it extends it by events that all
    satisfy [P]. *)
Definition emits {A} (P : event -> Prop) (m : M A) : Prop :=
  forall t, exists evs, snd (m t) = t ++ evs /\ Forall P evs.

(** ** Exceptions a computation lets out *)

(** Whatever the trace [m] starts from, an exception it raises satisfies
    [P]. *)
Definition raises {A} (P : exn -> Prop) (m : M A) : Prop :=
  forall t e t', m t = (Raise e, t') -> P e.

(** Every exception an outside call raises in [w] satisfies [P]. *)
Definition world_raises (P : exn -> Prop) (w : World) : Prop :=
  (forall host port ms e, create_connection w host port ms = Some e -> P e)
  /\ (forall host port e, getaddrinfo w host port = Some e -> P e)
  /\ (forall pool r e, urlopen w pool r = inl e -> P e).

(** The exceptions of reading a response: decoding its bytes, parsing its
    text, subscripting the document, reading an attribute. *)
Definition is_data_error (e : exn) : bool :=
  match e with
  | UnicodeDecodeError | JSONDecodeError | KeyError _ | TypeError
  | AttributeError => true
  | _ => false
  end.

(** ** More example worlds *)




(** Azure answers with zone 2. *)
Definition azure_zone_world : World :=
  example_world None None
    [("http://169.254.169.254/metadata/instance/compute?api-version=2019-08-15",
      body (json_text "{'location': 'westus2', 'name': 'vm-1', 'resourceGroupName': 'rg1', 'subscriptionId': 'sub123', 'vmId': 'e11ebedc', 'vmSize': 'Standard_D2s_v3', 'zone': '2'}"))]
    [].

(** * Properties *)

(** ** Facts on strings *)

Module StrFacts.
Import Str.

Lemma app_cons a s t : String a s +:+ t = String a (s +:+ t).
Proof. reflexivity. Qed.

Lemma app_nil_l s : "" +:+ s = s.
Proof. reflexivity. Qed.

Lemma app_nil_r s : s +:+ "" = s.
Proof. induction s as [|a s IH]; [done|]. by rewrite app_cons, IH. Qed.

Lemma app_assoc s t u : (s +:+ t) +:+ u = s +:+ t +:+ u.
Proof. induction s as [|a s IH]; [done|]. by rewrite !app_cons, IH. Qed.

Lemma app_length s t :
  String.length (s +:+ t) = (String.length s + String.length t)%nat.
Proof. induction s as [|a s IH]; [done|]. rewrite app_cons. simpl. by rewrite IH. Qed.

Lemma strip_prefix_app p s : strip_prefix p (p +:+ s) = Some s.
Proof.
  induction p as [|a p IH]; [by destruct s|].
  rewrite app_cons. simpl. by rewrite Ascii.eqb_refl.
Qed.

Lemma strip_prefix_Some p s r : strip_prefix p s = Some r -> s = p +:+ r.
Proof.
  revert s. induction p as [|a p IH]; intros s H.
  - destruct s; by inversion H.
  - destruct s as [|b s]; [done|]. simpl in H.
    destruct (Ascii.eqb_spec a b) as [->|]; [|done].
    rewrite app_cons. f_equal. by apply IH.
Qed.

Lemma contains_cons sub a s :
  contains sub (String a s) =
  match strip_prefix sub (String a s) with
  | Some _ => true
  | None => contains sub s
  end.
Proof. reflexivity. Qed.

Lemma partition_cons sep a s :
  partition sep (String a s) =
  match strip_prefix sep (String a s) with
  | Some rest => Some ("", rest)
  | None => match partition sep s with
            | Some (b, r) => Some (String a b, r)
            | None => None
            end
  end.
Proof. reflexivity. Qed.

Lemma contains_app sub a b : contains sub (a +:+ sub +:+ b) = true.
Proof.
  induction a as [|x a IH].
  - rewrite app_nil_l. destruct sub as [|c sub].
    + by destruct b.
    + rewrite app_cons, contains_cons, <- app_cons. by rewrite strip_prefix_app.
  - rewrite app_cons, contains_cons, IH. by destruct (strip_prefix _ _).
Qed.

Lemma contains_occurs sub s :
  contains sub s = true -> exists a b, s = a +:+ sub +:+ b.
Proof.
  induction s as [|x s IH].
  - simpl. destruct (strip_prefix sub "") as [r|] eqn:E; [|done].
    intros _. exists "", r. rewrite app_nil_l. by apply strip_prefix_Some.
  - rewrite contains_cons.
    destruct (strip_prefix sub (String x s)) as [r|] eqn:E.
    + intros _. exists "", r. rewrite app_nil_l. by apply strip_prefix_Some.
    + intros [a [b ->]]%IH. by exists (String x a), b.
Qed.

(** [sub in s] holds exactly when [s] has an occurrence of [sub]. *)
Lemma contains_spec sub s :
  contains sub s = true <-> exists a b, s = a +:+ sub +:+ b.
Proof.
  split; [apply contains_occurs|]. intros (a & b & ->). apply contains_app.
Qed.

Lemma contains_false_app_l sub a b :
  contains sub (a +:+ b) = false -> contains sub a = false.
Proof.
  intros H. destruct (contains sub a) eqn:E; [|done].
  apply contains_spec in E as (x & y & ->).
  rewrite !app_assoc in H. by rewrite contains_app in H.
Qed.

Lemma contains_false_app_r sub a b :
  contains sub (a +:+ b) = false -> contains sub b = false.
Proof.
  intros H. destruct (contains sub b) eqn:E; [|done].
  apply contains_spec in E as (x & y & ->).
  rewrite <- app_assoc in H. by rewrite contains_app in H.
Qed.

Lemma partition_None sep s : partition sep s = None <-> contains sep s = false.
Proof.
  induction s as [|x s IH].
  - simpl. by destruct (strip_prefix sep "").
  - rewrite partition_cons, contains_cons.
    destruct (strip_prefix sep (String x s)); [done|].
    rewrite <- IH. destruct (partition sep s) as [[]|]; done.
Qed.

Lemma partition_strip sep s r :
  strip_prefix sep s = Some r -> partition sep s = Some ("", r).
Proof. intros H. destruct s; simpl; by rewrite H. Qed.

Lemma partition_Some sep s b r :
  partition sep s = Some (b, r) -> s = b +:+ sep +:+ r.
Proof.
  revert b. induction s as [|x s IH]; intros b.
  - simpl. destruct (strip_prefix sep "") as [r'|] eqn:E; [|done].
    intros [= <- <-]. rewrite app_nil_l. by apply strip_prefix_Some.
  - rewrite partition_cons.
    destruct (strip_prefix sep (String x s)) as [r'|] eqn:E.
    + intros [= <- <-]. rewrite app_nil_l. by apply strip_prefix_Some.
    + destruct (partition sep s) as [[b' r']|]; [|done].
      intros [= <- <-]. rewrite app_cons. f_equal. by apply IH.
Qed.

(** The cut of [partition] is the leftmost one: the text before it is a
    prefix of the text before any occurrence. *)
Lemma partition_leftmost sep a b :
  exists p r a', partition sep (a +:+ sep +:+ b) = Some (p, r) /\ a = p +:+ a'.
Proof.
  induction a as [|x a (p & r & a' & IH & ->)].
  - exists "", b, "". split; [|done].
    rewrite app_nil_l. apply partition_strip, strip_prefix_app.
  - rewrite app_cons, partition_cons.
    destruct (strip_prefix sep _) as [r'|].
    + by exists "", r', (String x (p +:+ a')).
    + rewrite IH. by exists (String x p), r, a'.
Qed.

Lemma app_eq_prefix sep x y r :
  x +:+ y = sep +:+ r -> (String.length sep <= String.length x)%nat ->
  exists u, x = sep +:+ u /\ r = u +:+ y.
Proof.
  revert x. induction sep as [|c sep IH]; intros x H Hlen.
  - by exists x.
  - destruct x as [|c' x]; [simpl in Hlen; lia|].
    rewrite !app_cons in H. injection H as -> H.
    destruct (IH x H) as (u & -> & ->); [simpl in Hlen; lia|].
    by exists u.
Qed.

Lemma partition_length sep s b r :
  partition sep s = Some (b, r) ->
  String.length s = (String.length b + String.length sep + String.length r)%nat.
Proof. intros ->%partition_Some. rewrite !app_length. lia. Qed.

Lemma partition_empty sep : sep <> "" -> partition sep "" = None.
Proof. by destruct sep. Qed.

Lemma split_rounds_enough sep n m s :
  sep <> "" -> (String.length s <= n)%nat -> (String.length s <= m)%nat ->
  split_rounds n sep s = split_rounds m sep s.
Proof.
  intros Hsep. revert m s.
  assert (Hz : forall k s, String.length s = O -> split_rounds k sep s = [s]).
  { intros k [|??] ?; [|done]. destruct k; [done|]. cbn [split_rounds].
    by rewrite partition_empty. }
  induction n as [|n IH]; intros m s Hn Hm.
  - rewrite !Hz; [done|lia..].
  - destruct m as [|m]; [rewrite !Hz; [done|lia..]|].
    cbn [split_rounds]. destruct (partition sep s) as [[b r]|] eqn:E; [|done].
    apply partition_length in E. f_equal. destruct sep; [done|].
    simpl in E. apply IH; lia.
Qed.

Lemma split_cons sep s b r :
  sep <> "" -> partition sep s = Some (b, r) -> split sep s = b :: split sep r.
Proof.
  intros Hsep E. unfold split. pose proof (partition_length _ _ _ _ E) as Hlen.
  destruct sep as [|c sep]; [done|]. simpl in Hlen.
  destruct (String.length s) as [|n] eqn:En; [lia|].
  cbn [split_rounds]. rewrite E. f_equal. apply split_rounds_enough; [done|lia..].
Qed.

Lemma split_none sep s : contains sep s = false -> split sep s = [s].
Proof.
  intros H%partition_None. unfold split.
  destruct (String.length s); [done|]. cbn [split_rounds]. by rewrite H.
Qed.

Lemma split_nonempty sep s : exists x l, split sep s = x :: l.
Proof.
  unfold split. destruct (String.length s); cbn [split_rounds]; [by eauto|].
  destruct (partition sep s) as [[]|]; eauto.
Qed.

(** Two occurrences of the separator give at least three fields. *)
Lemma split_two_occurrences sep a b c :
  sep <> "" ->
  exists x y z l, split sep (a +:+ sep +:+ b +:+ sep +:+ c) = x :: y :: z :: l.
Proof.
  intros Hsep.
  destruct (partition_leftmost sep a (b +:+ sep +:+ c)) as (p & r & a' & E & ->).
  pose proof (partition_Some _ _ _ _ E) as Hs.
  rewrite !app_assoc in Hs. apply (inj (String.app p)) in Hs.
  rewrite <- (app_assoc a'), <- (app_assoc (a' +:+ sep)) in Hs.
  apply app_eq_prefix in Hs as (u & _ & ->); [|rewrite !app_length; lia].
  rewrite (split_cons _ _ _ _ Hsep E).
  destruct (partition_leftmost sep u c) as (p2 & r2 & _ & E2 & _).
  rewrite (split_cons _ _ _ _ Hsep E2).
  destruct (split_nonempty sep r2) as (z & l & ->). by eauto.
Qed.

Lemma char_nonempty c : String c "" <> "".
Proof. done. Qed.

Lemma partition_char c a b :
  contains (String c "") a = false ->
  partition (String c "") (a +:+ String c b) = Some (a, b).
Proof.
  induction a as [|x a IH]; intros H.
  - rewrite app_nil_l. simpl. by rewrite Ascii.eqb_refl.
  - rewrite contains_cons in H. rewrite app_cons, partition_cons.
    simpl in *. destruct (Ascii.eqb c x); [done|]. by rewrite IH.
Qed.

Lemma rpartition_None sep s : contains sep s = false -> rpartition sep s = None.
Proof.
  induction s as [|x s IH]; [done|]. rewrite contains_cons. simpl.
  destruct (strip_prefix sep (String x s)); [done|]. by intros ->%IH.
Qed.

Lemma rpartition_char c a b :
  contains (String c "") b = false ->
  rpartition (String c "") (a +:+ String c b) = Some (a, b).
Proof.
  intros H. induction a as [|x a IH].
  - rewrite app_nil_l. simpl. rewrite (rpartition_None _ _ H).
    by rewrite Ascii.eqb_refl.
  - rewrite app_cons. simpl. by rewrite IH.
Qed.

Lemma split_char_last c a b :
  contains (String c "") b = false ->
  last (split (String c "") (a +:+ String c b)) = Some b.
Proof.
  intros H. induction a as [|x a IH].
  - rewrite app_nil_l.
    rewrite (split_cons _ _ "" b); [|done|simpl; by rewrite Ascii.eqb_refl].
    by rewrite (split_none _ _ H).
  - destruct (partition_leftmost (String c "") a b) as (p & r & a' & E & ->).
    change (String c "" +:+ b) with (String c b) in E.
    rewrite (split_cons _ _ _ _ (char_nonempty _) E) in IH.
    rewrite app_cons.
    destruct (Ascii.eqb_spec c x) as [->|Hne].
    + rewrite (split_cons _ _ "" ((p +:+ a') +:+ String x b));
        [|done|simpl; by rewrite Ascii.eqb_refl].
      rewrite (split_cons _ _ _ _ (char_nonempty _) E).
      destruct (split_nonempty (String x "") r) as (z & l & Hz).
      rewrite Hz in IH |- *. by rewrite !last_cons_cons in IH |- *.
    + rewrite (split_cons _ _ (String x p) r); [|done|].
      * destruct (split_nonempty (String c "") r) as (z & l & Hz).
        rewrite Hz in IH |- *. by rewrite !last_cons_cons in IH |- *.
      * rewrite partition_cons. simpl strip_prefix.
        destruct (Ascii.eqb_spec c x); [done|]. by rewrite E.
Qed.

Lemma split_single sep s y :
  sep <> "" -> split sep s = [y] -> s = y /\ contains sep s = false.
Proof.
  intros Hsep. unfold split.
  destruct (String.length s) as [|n] eqn:El; cbn [split_rounds].
  - intros [= <-]. split; [done|]. destruct s; [|done]. by destruct sep.
  - destruct (partition sep s) as [[b r]|] eqn:E.
    + intros [= _ H]. by destruct n; cbn [split_rounds] in H;
        [|destruct (partition sep r) as [[]|]].
    + intros [= <-]. split; [done|]. by apply partition_None.
Qed.

(** Exactly two fields: the separator occurs once, at the cut. *)
Lemma split_pair sep s x y :
  sep <> "" -> split sep s = [x; y] ->
  partition sep s = Some (x, y) /\ contains sep y = false.
Proof.
  intros Hsep H. destruct (partition sep s) as [[b r]|] eqn:E.
  - rewrite (split_cons _ _ _ _ Hsep E) in H. injection H as -> H.
    by apply (split_single _ _ _ Hsep) in H as [-> ?].
  - apply partition_None in E. rewrite (split_none _ _ E) in H. done.
Qed.

(** A single-character separator that does not occur after the cut was
    cut at its only occurrence. *)
Lemma partition_char_unique c a b x y :
  partition (String c "") (a +:+ String c "" +:+ b) = Some (x, y) ->
  contains (String c "") y = false -> x = a /\ y = b.
Proof.
  intros E Hy.
  destruct (partition_leftmost (String c "") a b) as (p & r & a' & E' & ->).
  rewrite E in E'. injection E' as <- <-.
  apply partition_Some in E. rewrite app_assoc in E.
  apply (inj (String.app x)) in E.
  destruct a' as [|d a'].
  - rewrite app_nil_r. change (String c b = String c y) in E.
    by injection E as ->.
  - change (String d (a' +:+ String c "" +:+ b) = String c y) in E.
    injection E as -> <-. by rewrite contains_app in Hy.
Qed.


End StrFacts.

(** ** Running a computation step by step *)

Section steps.
Context {A B : Type}.

Lemma bind_Ret (m : M A) (k : A -> M B) t a t' :
  m t = (Ret a, t') -> bind m k t = k a t'.
Proof. unfold bind. by intros ->. Qed.

Lemma bind_Raise (m : M A) (k : A -> M B) t e t' :
  m t = (Raise e, t') -> bind m k t = (Raise e, t').
Proof. unfold bind. by intros ->. Qed.

Lemma try_Ret (m : M A) (h : exn -> M A) t a t' :
  m t = (Ret a, t') -> try_except m h t = (Ret a, t').
Proof. unfold try_except. by intros ->. Qed.

Lemma try_Raise (m : M A) (h : exn -> M A) t e t' :
  m t = (Raise e, t') -> try_except m h t = h e t'.
Proof. unfold try_except. by intros ->. Qed.

Lemma bind_inv_Ret (m : M A) (k : A -> M B) t b t'' :
  bind m k t = (Ret b, t'') ->
  exists a t', m t = (Ret a, t') /\ k a t' = (Ret b, t'').
Proof. unfold bind. destruct (m t) as [[a|e] t']; [by eauto|done]. Qed.

End steps.

Ltac bind_inv H :=
  repeat (apply bind_inv_Ret in H as (? & ? & _ & H)).

Ltac trace_eq := unfold ret; f_equal; rewrite <- ?app_assoc; reflexivity.

Lemma connect_ok w host port ms t :
  create_connection w host port ms = None ->
  socket_create_connection w host port ms t = (Ret tt, t ++ [EConnect host port ms]).
Proof. unfold socket_create_connection, bind, emit. by intros ->. Qed.

Lemma connect_fails w host port ms e t :
  create_connection w host port ms = Some e ->
  socket_create_connection w host port ms t = (Raise e, t ++ [EConnect host port ms]).
Proof. unfold socket_create_connection, bind, emit. by intros ->. Qed.

Lemma resolve_ok w host port t :
  getaddrinfo w host port = None ->
  socket_getaddrinfo w host port t = (Ret tt, t ++ [EGetAddrInfo host port]).
Proof. unfold socket_getaddrinfo, bind, emit. by intros ->. Qed.

Lemma resolve_fails w host port e t :
  getaddrinfo w host port = Some e ->
  socket_getaddrinfo w host port t = (Raise e, t ++ [EGetAddrInfo host port]).
Proof. unfold socket_getaddrinfo, bind, emit. by intros ->. Qed.

Lemma request_ok w pool r response t :
  urlopen w pool r = inr response ->
  http_request w pool r t = (Ret response, t ++ [ERequest pool r]).
Proof. unfold http_request, bind, emit. by intros ->. Qed.

Lemma request_fails w pool r e t :
  urlopen w pool r = inl e ->
  http_request w pool r t = (Raise e, t ++ [ERequest pool r]).
Proof. unfold http_request, bind, emit. by intros ->. Qed.

Lemma environ_get w name t :
  os_environ_get w name t = (Ret (environ w !! name), t ++ [EEnvGet name]).
Proof. reflexivity. Qed.

Lemma decode_utf8 text t : decode (utf8 text) t = (Ret text, t).
Proof. reflexivity. Qed.

Lemma json_loads_ok w text doc t :
  json_decode w text = Some doc -> json_loads w text t = (Ret doc, t).
Proof. unfold json_loads. by intros ->. Qed.

Lemma json_loads_fails w text t :
  json_decode w text = None -> json_loads w text t = (Raise JSONDecodeError, t).
Proof. unfold json_loads. by intros ->. Qed.

Lemma getitem_ok d key v t :
  dict_get key d = Some v -> getitem (VDict d) key t = (Ret v, t).
Proof. unfold getitem. by intros ->. Qed.

Lemma getitem_missing d key t :
  dict_get key d = None -> getitem (VDict d) key t = (Raise (KeyError key), t).
Proof. unfold getitem. by intros ->. Qed.

Lemma py_index_first {A} (x : A) l t : py_index (x :: l) 0 t = (Ret x, t).
Proof.
  unfold py_index. cbn [Z.ltb Z.compare length].
  replace ((0 <=? 0) && (0 <? Z.of_nat (S (length l)))) with true; [done|].
  symmetry. apply andb_true_iff. split; [done|]. apply Z.ltb_lt. lia.
Qed.

Lemma py_index_last {A} (l : list A) x t :
  last l = Some x -> py_index l (-1) t = (Ret x, t).
Proof.
  intros H. unfold py_index. cbn [Z.ltb Z.compare].
  rewrite last_lookup in H.
  assert (length l <> O) by (destruct l; done).
  replace ((0 <=? Z.of_nat (length l) + -1) &&
           (Z.of_nat (length l) + -1 <? Z.of_nat (length l))) with true.
  2:{ symmetry. apply andb_true_iff. split; [apply Z.leb_le|apply Z.ltb_lt]; lia. }
  replace (Z.to_nat (Z.of_nat (length l) + -1)) with (pred (length l)) by lia.
  by rewrite H.
Qed.

(** ** Rules for [emits] *)

Section emits_rules.
Context {A B : Type} (P : event -> Prop).

Lemma emits_ret (a : A) : emits P (ret a).
Proof. intros t. exists []. by rewrite app_nil_r. Qed.

Lemma emits_raise e : emits P (@raise A e).
Proof. intros t. exists []. by rewrite app_nil_r. Qed.

Lemma emits_emit ev : P ev -> emits P (emit ev).
Proof. intros H t. exists [ev]. split; [done|]. by constructor. Qed.

Lemma emits_bind (m : M A) (k : A -> M B) :
  emits P m -> (forall a, emits P (k a)) -> emits P (bind m k).
Proof.
  intros Hm Hk t. unfold bind. destruct (Hm t) as (evs & E & HP).
  destruct (m t) as [[a|e] t']; cbn in E; subst t'.
  - destruct (Hk a (t ++ evs)) as (evs' & -> & HP').
    exists (evs ++ evs'). split; [by rewrite app_assoc|by apply Forall_app].
  - by exists evs.
Qed.

Lemma emits_try (m : M A) (h : exn -> M A) :
  emits P m -> (forall e, emits P (h e)) -> emits P (try_except m h).
Proof.
  intros Hm Hh t. unfold try_except. destruct (Hm t) as (evs & E & HP).
  destruct (m t) as [[a|e] t']; cbn in E; subst t'.
  - by exists evs.
  - destruct (Hh e (t ++ evs)) as (evs' & -> & HP').
    exists (evs ++ evs'). split; [by rewrite app_assoc|by apply Forall_app].
Qed.

Lemma emits_if (b : bool) (m1 m2 : M A) :
  emits P m1 -> emits P m2 -> emits P (if b then m1 else m2).
Proof. by destruct b. Qed.

Lemma emits_of_option e (o : option A) : emits P (of_option e o).
Proof. destruct o; [apply emits_ret|apply emits_raise]. Qed.

End emits_rules.

Lemma emits_decode P b : emits P (decode b).
Proof. destruct b; [apply emits_ret|apply emits_raise]. Qed.

Lemma emits_json_loads P w text : emits P (json_loads w text).
Proof. apply emits_of_option. Qed.

Lemma emits_getitem P obj key : emits P (getitem obj key).
Proof. destruct obj; try apply emits_raise. apply emits_of_option. Qed.

Lemma emits_response_status P e : emits P (response_status e).
Proof. destruct e as [|[]| | | | | | | |]; first [apply emits_ret|apply emits_raise]. Qed.

Lemma emits_connect (P : event -> Prop) w host port ms :
  P (EConnect host port ms) -> emits P (socket_create_connection w host port ms).
Proof.
  intros H. apply emits_bind; [by apply emits_emit|]. intros _.
  destruct (create_connection _ _ _ _); [apply emits_raise|apply emits_ret].
Qed.

Lemma emits_request (P : event -> Prop) w pool r :
  P (ERequest pool r) -> emits P (http_request w pool r).
Proof.
  intros H. apply emits_bind; [by apply emits_emit|]. intros _.
  destruct (urlopen _ _ _); [apply emits_raise|apply emits_ret].
Qed.

Create HintDb emits.
#[local] Hint Resolve emits_ret emits_raise emits_bind emits_try emits_if
  emits_of_option emits_decode emits_json_loads emits_getitem
  emits_response_status : emits.

(** ** [aws_metadata] *)

(** The three ways [fetch_metadata] ends: with the text of the body, with
    a body that is not UTF-8, with the request raising. *)
Lemma fetch_metadata_ok w path headers text t :
  urlopen w aws.http (aws_get path headers) = body text ->
  aws.fetch_metadata w path headers t
  = (Ret text, t ++ [ERequest aws.http (aws_get path headers)]).
Proof.
  intros H. unfold aws.fetch_metadata.
  erewrite bind_Ret by (apply request_ok, H). reflexivity.
Qed.

Lemma fetch_metadata_undecodable w path headers t :
  urlopen w aws.http (aws_get path headers) = inr {| data := invalid_utf8 |} ->
  aws.fetch_metadata w path headers t
  = (Raise UnicodeDecodeError, t ++ [ERequest aws.http (aws_get path headers)]).
Proof.
  intros H. unfold aws.fetch_metadata.
  erewrite bind_Ret by (apply request_ok, H). reflexivity.
Qed.

Lemma fetch_metadata_fails w path headers e t :
  urlopen w aws.http (aws_get path headers) = inl e ->
  aws.fetch_metadata w path headers t
  = (Raise e, t ++ [ERequest aws.http (aws_get path headers)]).
Proof.
  intros H. unfold aws.fetch_metadata.
  erewrite bind_Raise by (apply request_fails, H). reflexivity.
Qed.

Lemma emits_fetch_metadata w path headers :
  emits aws_request_policy (aws.fetch_metadata w path headers).
Proof.
  unfold aws.fetch_metadata. apply emits_bind; [|auto with emits].
  apply emits_request. cbn. auto 10.
Qed.

#[local] Hint Resolve emits_fetch_metadata : emits.

(** Every outside call of [aws_metadata] follows [aws_request_policy]. *)
Lemma emits_aws_metadata w : emits aws_request_policy (aws_metadata w).
Proof.
  unfold aws_metadata. apply emits_try; [|auto with emits].
  apply emits_bind; [by apply emits_connect|]. intros _.
  apply emits_bind; [|auto with emits]. apply emits_try.
  - unfold aws.imdsv2. apply emits_bind; [|auto 20 with emits].
    apply emits_request. cbn. auto 10.
  - intros e. unfold aws.imdsv1. auto 20 with emits.
Qed.

(** X8.  Whatever the world answers, every request of [aws_metadata] goes
    out as [aws_request_policy] says: through the one pool, with a timeout
    of one second, and only the token [PUT] under the bounded retry
    policy. *)
Theorem aws_requests_policy w t :
  exists evs, snd (aws_metadata w t) = t ++ evs /\ Forall aws_request_policy evs.
Proof. apply emits_aws_metadata. Qed.

(** An [HTTPError] out of the IMDSv2 block comes from one of its two
    requests: [metadata] still is [{}] when the [except] clause runs. *)
Lemma imdsv2_HTTPError_origin w t response t' :
  aws.imdsv2 w t = (Raise (HTTPError response), t') ->
  urlopen w aws.http aws_token_request = inl (HTTPError response)
  \/ exists token, urlopen w aws.http (aws_document_request token)
                   = inl (HTTPError response).
Proof.
  unfold aws.imdsv2. intros H.
  destruct (urlopen w aws.http aws_token_request) as [e|[[token|]]] eqn:Ht.
  { erewrite bind_Raise in H by (apply request_fails, Ht). left. congruence. }
  2:{ erewrite bind_Ret in H by (apply request_ok, Ht).
      by erewrite bind_Raise in H by reflexivity. }
  erewrite bind_Ret in H by (apply request_ok, Ht).
  erewrite bind_Ret in H by reflexivity.
  destruct (urlopen w aws.http (aws_document_request token)) as [e|[[text|]]] eqn:Hd.
  { erewrite bind_Raise in H by (apply fetch_metadata_fails, Hd).
    right. exists token. congruence. }
  2:{ by erewrite bind_Raise in H by (apply fetch_metadata_undecodable, Hd). }
  erewrite bind_Ret in H by (apply fetch_metadata_ok, Hd).
  unfold json_loads, getitem, of_option, bind, ret, raise in H.
  destruct (json_decode w text) as [[| | | | | |d]|]; try done.
  repeat (match type of H with
          | context [dict_get ?k d] => destruct (dict_get k d); [|done]
          end).
  done.
Qed.

(** The mapping of the IMDSv2 path is normalized. *)
Lemma aws_imdsv2_shape w t m t' :
  aws.imdsv2 w t = (Ret m, t') -> cloud_metadata_shape m = true.
Proof.
  unfold aws.imdsv2. intros H. bind_inv H. by injection H as <- _.
Qed.

(** The mapping of the IMDSv1 path, when it is not empty: the five raw
    fields. *)
Lemma aws_imdsv1_result w e t m t' :
  aws.imdsv1 w e t = (Ret m, t') ->
  m = [] \/
  exists account_id instance_id instance_type availability_zone,
    m = [("accountId", VStr account_id);
         ("instanceId", VStr instance_id);
         ("instanceType", VStr instance_type);
         ("availabilityZone", VStr availability_zone);
         ("region", VStr (Str.drop_last availability_zone))].
Proof.
  unfold aws.imdsv1. intros H. destruct (is_HTTPError e); [|done].
  apply bind_inv_Ret in H as (status & ? & _ & H).
  destruct (status =? 401).
  - apply bind_inv_Ret in H as (a & ? & _ & H).
    apply bind_inv_Ret in H as (i & ? & _ & H).
    apply bind_inv_Ret in H as (ty & ? & _ & H).
    apply bind_inv_Ret in H as (az & ? & _ & H).
    injection H as <- _. right. by exists a, i, ty, az.
  - injection H as <- _. by left.
Qed.

(** X6.  What [aws_metadata] can return: nothing, the normalized mapping
    of IMDSv2, or the five raw fields of IMDSv1. *)
Theorem aws_metadata_results w t m t' :
  aws_metadata w t = (Ret m, t') ->
  m = [] \/ cloud_metadata_shape m = true \/
  exists account_id instance_id instance_type availability_zone,
    m = [("accountId", VStr account_id);
         ("instanceId", VStr instance_id);
         ("instanceType", VStr instance_type);
         ("availabilityZone", VStr availability_zone);
         ("region", VStr (Str.drop_last availability_zone))].
Proof.
  unfold aws_metadata, try_except at 1.
  destruct (bind _ _ t) as [[m'|e] t1] eqn:E.
  - intros [= <- _]. apply bind_inv_Ret in E as ([] & t2 & _ & E).
    apply bind_inv_Ret in E as (m & t3 & E & [= <- _]).
    unfold try_except in E. destruct (aws.imdsv2 w t2) as [[m'|e] t4] eqn:E2.
    + injection E as <- _. right. left. by eapply aws_imdsv2_shape.
    + apply aws_imdsv1_result in E as [->|?]; auto.
  - destruct (is_socket_or_HTTPError e); [|done]. intros [= <- _]. by left.
Qed.

(** X2.  [aws_metadata] gives the empty mapping when the connection fails
    with a socket error, and makes no request. *)
Theorem aws_connect_failure w t e :
  create_connection w "169.254.169.254" 80 100 = Some e ->
  is_socket_or_HTTPError e = true ->
  aws_metadata w t = (Ret [], t ++ [EConnect "169.254.169.254" 80 100]).
Proof.
  intros Hc He. unfold aws_metadata.
  erewrite try_Raise by (by erewrite bind_Raise by (apply connect_fails, Hc)).
  by rewrite He.
Qed.


(** An [HTTPError] that carries no response escapes as the
    [AttributeError] of [e.response]. *)
Theorem aws_http_error_without_response w t :
  create_connection w "169.254.169.254" 80 100 = None ->
  urlopen w aws.http aws_token_request = inl (HTTPError None) ->
  fst (aws_metadata w t) = Raise AttributeError.
Proof.
  intros Hc Ht. unfold aws_metadata. erewrite try_Raise; cycle 1.
  { erewrite bind_Ret by (apply connect_ok, Hc).
    erewrite bind_Raise; [reflexivity|].
    erewrite try_Raise; cycle 1.
    { unfold aws.imdsv2.
      erewrite bind_Raise by (apply request_fails, Ht). reflexivity. }
    reflexivity. }
  reflexivity.
Qed.

(** It lets a decoding error of the identity document out. *)
Theorem aws_malformed_document w t token text :
  create_connection w "169.254.169.254" 80 100 = None ->
  urlopen w aws.http aws_token_request = body token ->
  urlopen w aws.http (aws_document_request token) = body text ->
  json_decode w text = None ->
  fst (aws_metadata w t) = Raise JSONDecodeError.
Proof.
  intros Hc Ht Hd Hj. unfold aws_metadata.
  erewrite try_Raise; cycle 1.
  { erewrite bind_Ret by (apply connect_ok, Hc).
    erewrite bind_Raise; [reflexivity|].
    erewrite try_Raise; cycle 1.
    { unfold aws.imdsv2.
      erewrite bind_Ret by (apply request_ok, Ht).
      erewrite bind_Ret by reflexivity.
      erewrite bind_Ret by (apply fetch_metadata_ok, Hd).
      erewrite bind_Raise by (apply json_loads_fails, Hj). reflexivity. }
    reflexivity. }
  reflexivity.
Qed.

(** C1, at its failing inputs.  The claim is that [aws_metadata] never
    raises, whatever the responses hold.  It does: with the service
    reachable and the token granted, an identity document that is not JSON
    makes it raise [JSONDecodeError], and one that lacks the key [region]
    makes it raise [KeyError]; its [except] clauses only name
    [socket.error] and [HTTPError]. *)
Theorem aws_metadata_raises_on_bad_document :
  fst (aws_metadata aws_malformed_document_world []) = Raise JSONDecodeError
  /\ fst (aws_metadata aws_incomplete_document_world [])
     = Raise (KeyError "region").
Proof. split; reflexivity. Qed.







(** ** [gcp_metadata] *)

(** [os.path.split(p)[1]] is the last path segment of [p]. *)
Lemma os_path_split_tail p tail :
  last_segment "/" p tail -> snd (Str.os_path_split p) = tail.
Proof.
  intros [Hno [->|[before ->]]]; unfold Str.os_path_split.
  - by rewrite (StrFacts.rpartition_None _ _ Hno).
  - by rewrite (StrFacts.rpartition_char _ _ _ Hno).
Qed.

(** [s.rsplit(c, 1)[0]] is [s] without its trailing segment. *)
Lemma rsplit1_without_last_segment c s r :
  without_last_segment c s r -> exists l, Str.rsplit1 (String c "") s = r :: l.
Proof.
  intros [(suffix & -> & Hno)|[-> Hno]]; unfold Str.rsplit1.
  - rewrite (StrFacts.rpartition_char _ _ _ Hno). by eauto.
  - rewrite (StrFacts.rpartition_None _ _ Hno). by eauto.
Qed.

(** [s.split(c)[-1]] is the last segment of [s]. *)
Lemma split_last_segment c s seg :
  last_segment c s seg -> last (Str.split (String c "") s) = Some seg.
Proof.
  intros [Hno [->|[before ->]]].
  - by rewrite (StrFacts.split_none _ _ Hno).
  - by apply StrFacts.split_char_last.
Qed.

(** The mapping the [try] block returns is normalized. *)
Lemma gcp_probe_shape w t m t' :
  gcp.probe w t = (Ret m, t') -> cloud_metadata_shape m = true.
Proof.
  unfold gcp.probe. intros H. bind_inv H. by injection H as <- _.
Qed.

(** What [gcp_metadata] returns is empty or normalized. *)
Theorem gcp_metadata_shape w t m t' :
  gcp_metadata w t = (Ret m, t') -> cloud_metadata_shape m = true.
Proof.
  unfold gcp_metadata, try_except.
  destruct (gcp.probe w t) as [[m'|e] t1] eqn:E.
  - intros [= <- _]. by eapply gcp_probe_shape.
  - destruct (is_Exception e); [|done]. by intros [= <- _].
Qed.

(** [gcp_metadata] lets no [Exception] out. *)
Theorem gcp_metadata_catches w t e t' :
  gcp_metadata w t = (Raise e, t') -> is_Exception e = false.
Proof.
  unfold gcp_metadata, try_except.
  destruct (gcp.probe w t) as [[m'|e'] t1]; [done|].
  destruct (is_Exception e') eqn:E; [done|]. by intros [= <- _].
Qed.

(** C9.  On a successful fetch [gcp_metadata] returns [instance.id] as the
    printed id (its decimal digits for a number), [machine.type] as the
    last [/]-separated segment of [instance.machineType],
    [availability_zone] as the last path segment of [instance.zone], and
    [region] as [availability_zone] without its trailing [-suffix]. *)
Theorem gcp_normalization w t text doc instance project
    id name zone machineType projectId availability_zone region machine_type :
  getaddrinfo w "metadata.google.internal" 80 = None ->
  urlopen w gcp.http gcp_request = body text ->
  json_decode w text = Some (VDict doc) ->
  dict_get "instance" doc = Some (VDict instance) ->
  dict_get "project" doc = Some (VDict project) ->
  dict_get "id" instance = Some id ->
  dict_get "name" instance = Some name ->
  dict_get "zone" instance = Some (VStr zone) ->
  dict_get "machineType" instance = Some (VStr machineType) ->
  dict_get "projectId" project = Some projectId ->
  last_segment "/" zone availability_zone ->
  without_last_segment "-" availability_zone region ->
  last_segment "/" machineType machine_type ->
  gcp_metadata w t
  = (Ret [("provider", VStr "gcp");
          ("instance",
           VDict [("id", VStr (py_str id)); ("name", name)]);
          ("project", VDict [("id", projectId)]);
          ("availability_zone", VStr availability_zone);
          ("region", VStr region);
          ("machine", VDict [("type", VStr machine_type)])],
     t ++ [EGetAddrInfo "metadata.google.internal" 80;
           ERequest gcp.http gcp_request])
  /\ forall n, id = VInt n -> py_str id = NilZero.string_of_int (Z.to_int n).
Proof.
  intros Ha Hr Hj Hi Hp Hid Hname Hzone Hmt Hpid Haz Hregion Hmtype.
  split; [|by intros n ->].
  apply os_path_split_tail in Haz.
  apply rsplit1_without_last_segment in Hregion as [l Hregion].
  apply split_last_segment in Hmtype.
  unfold gcp_metadata. erewrite try_Ret; cycle 1.
  { unfold gcp.probe.
    erewrite bind_Ret by (apply resolve_ok, Ha).
    erewrite bind_Ret by (apply request_ok, Hr).
    erewrite bind_Ret by reflexivity.
    erewrite bind_Ret by (apply json_loads_ok, Hj).
    erewrite bind_Ret by (apply getitem_ok, Hi).
    erewrite bind_Ret by (apply getitem_ok, Hzone).
    erewrite bind_Ret by reflexivity.
    erewrite bind_Ret by (apply getitem_ok, Hi).
    erewrite bind_Ret by (apply getitem_ok, Hid).
    erewrite bind_Ret by (apply getitem_ok, Hi).
    erewrite bind_Ret by (apply getitem_ok, Hname).
    erewrite bind_Ret by (apply getitem_ok, Hp).
    erewrite bind_Ret by (apply getitem_ok, Hpid).
    erewrite bind_Ret by reflexivity.
    rewrite Haz, Hregion.
    erewrite bind_Ret by apply py_index_first.
    erewrite bind_Ret by (apply getitem_ok, Hi).
    erewrite bind_Ret by (apply getitem_ok, Hmt).
    erewrite bind_Ret by reflexivity.
    erewrite bind_Ret by (apply py_index_last, Hmtype).
    reflexivity. }
  trace_eq.
Qed.

Lemma gcp_normalization_witness :
  gcp_metadata gcp_world []
  = (Ret [("provider", VStr "gcp");
          ("instance", VDict [("id", VStr "4520031799277581759");
                              ("name", VStr "vm-1")]);
          ("project", VDict [("id", VStr "my-project")]);
          ("availability_zone", VStr "us-central1-a");
          ("region", VStr "us-central1");
          ("machine", VDict [("type", VStr "n1-standard-1")])],
     [EGetAddrInfo "metadata.google.internal" 80;
      ERequest gcp.http gcp_request]).
Proof.
  refine (proj1 (gcp_normalization gcp_world [] _ _ _ _
            (VInt 4520031799277581759) (VStr "vm-1")
            "projects/513326162531/zones/us-central1-a"
            "projects/513326162531/machineTypes/n1-standard-1"
            (VStr "my-project") "us-central1-a" "us-central1" "n1-standard-1"
            eq_refl eq_refl eq_refl eq_refl eq_refl eq_refl eq_refl eq_refl
            eq_refl eq_refl _ _ _)).
  - split; [reflexivity|]. right. by exists "projects/513326162531/zones".
  - left. by exists "a".
  - split; [reflexivity|]. right. by exists "projects/513326162531/machineTypes".
Defined.

(** ** [azure_app_service_metadata] *)

(** When the parse completes, each split gave exactly two fields. *)
Lemma parse_owner_name_Ret ret0 owner t r t' :
  app_service.parse_owner_name ret0 (Some owner) t = (Ret r, t') ->
  t' = t /\
  exists account rest prefix suffix head region,
    Str.split "+" owner = [account; rest] /\
    Str.split "webspace" rest = [prefix; suffix] /\
    Str.rsplit1 "-" prefix = [head; region] /\
    r = dict_set "region" (VStr region)
          (dict_set "account" (VDict [("id", VStr account)]) ret0).
Proof.
  unfold app_service.parse_owner_name, method_split, method_rsplit1, unpack2,
    py_index, of_option, bind, ret, raise, opt_value.
  cbn [String.eqb Ascii.eqb Bool.eqb].
  destruct (Str.split "+" owner) as [|account [|rest [|??]]]; try done.
  cbn [fst snd].
  destruct (Str.split "webspace" rest) as [|prefix [|suffix [|??]]] eqn:E2;
    try done.
  cbn [fst snd]. unfold Str.rsplit1.
  destruct (Str.rpartition "-" prefix) as [[head region]|] eqn:E3; cbn; [|done].
  intros [= <- <-]. split; [done|].
  exists account, rest, prefix, suffix, head, region. by rewrite E2, E3.
Qed.

(** What the parse raises is an [Exception]. *)
Lemma parse_owner_name_Raise ret0 o t e t' :
  app_service.parse_owner_name ret0 o t = (Raise e, t') ->
  t' = t /\ is_Exception e = true.
Proof.
  unfold app_service.parse_owner_name, method_split, method_rsplit1, unpack2,
    py_index, of_option, bind, ret, raise, opt_value.
  cbn [String.eqb Ascii.eqb Bool.eqb].
  destruct o as [owner|]; [|by intros [= <- <-]].
  destruct (Str.split "+" owner) as [|account [|rest [|??]]];
    try by intros [= <- <-].
  cbn [fst snd].
  destruct (Str.split "webspace" rest) as [|prefix [|suffix [|??]]];
    try by intros [= <- <-].
  cbn [fst snd]. unfold Str.rsplit1.
  destruct (Str.rpartition "-" prefix) as [[head region]|]; cbn; by intros [= <- <-].
Qed.

(** The parse makes no outside call. *)
Lemma parse_owner_name_trace ret0 o t :
  app_service.parse_owner_name ret0 o t
  = (fst (app_service.parse_owner_name ret0 o []), t).
Proof.
  unfold app_service.parse_owner_name, method_split, method_rsplit1, unpack2,
    py_index, of_option, bind, ret, raise, opt_value.
  cbn [String.eqb Ascii.eqb Bool.eqb].
  destruct o as [owner|]; [|done].
  destruct (Str.split "+" owner) as [|account [|rest [|??]]]; try done.
  cbn [fst snd].
  destruct (Str.split "webspace" rest) as [|prefix [|suffix [|??]]]; try done.
  cbn [fst snd]. unfold Str.rsplit1.
  by destruct (Str.rpartition "-" prefix) as [[head region]|].
Qed.

(** The probe starts with the four reads. *)
Lemma app_service_reads w t :
  azure_app_service_metadata w t
  = (let o := environ w !! "WEBSITE_OWNER_NAME" in
     let i := environ w !! "WEBSITE_INSTANCE_ID" in
     let s := environ w !! "WEBSITE_SITE_NAME" in
     let g := environ w !! "WEBSITE_RESOURCE_GROUP" in
     if negb (forallb truthy (map opt_value [o; i; s; g])) then ret []
     else
       has_plus <- str_in "+" o ;;
       if negb has_plus then ret []
       else
         parsed <- try_except
                     (ret1 <- app_service.parse_owner_name
                                [("provider", VStr "azure")] o ;;
                      ret (Some ret1))
                     (fun e => if is_Exception e then ret None else raise e) ;;
         match parsed with
         | None => ret []
         | Some ret1 =>
             ret (dict_set "project" (VDict [("name", opt_value g)])
                    (dict_set "instance"
                       (VDict [("id", opt_value i); ("name", opt_value s)]) ret1))
         end) (t ++ environment_reads).
Proof.
  unfold azure_app_service_metadata.
  do 4 (erewrite bind_Ret by apply environ_get).
  cbv zeta. unfold environment_reads, WEBSITE_VARIABLES. cbn [map].
  by rewrite <- !app_assoc.
Qed.

Lemma truthy_str s : truthy (VStr s) = true <-> s <> "".
Proof.
  cbn. rewrite negb_true_iff. apply String.eqb_neq.
Qed.

(** Once the variables are set and non-empty: the probe returns the empty
    mapping when the parse raises, and completes the parsed mapping
    otherwise. *)
Lemma app_service_set w t owner i s g :
  environ w !! "WEBSITE_OWNER_NAME" = Some owner ->
  environ w !! "WEBSITE_INSTANCE_ID" = Some i ->
  environ w !! "WEBSITE_SITE_NAME" = Some s ->
  environ w !! "WEBSITE_RESOURCE_GROUP" = Some g ->
  owner <> "" -> i <> "" -> s <> "" -> g <> "" ->
  azure_app_service_metadata w t
  = (Ret (if negb (Str.contains "+" owner) then []
          else
            match app_service.parse_owner_name
                    [("provider", VStr "azure")] (Some owner) [] with
            | (Ret ret1, _) =>
                dict_set "project" (VDict [("name", VStr g)])
                  (dict_set "instance" (VDict [("id", VStr i); ("name", VStr s)])
                     ret1)
            | (Raise _, _) => []
            end),
     t ++ environment_reads).
Proof.
  intros Eo Ei Es Eg Ho Hi Hs Hg. rewrite app_service_reads. cbv zeta.
  rewrite Eo, Ei, Es, Eg. cbn [map forallb opt_value].
  apply truthy_str in Ho, Hi, Hs, Hg. rewrite Ho, Hi, Hs, Hg. cbn [andb negb].
  unfold str_in. erewrite bind_Ret by reflexivity.
  destruct (Str.contains "+" owner); [|done]. cbn [negb].
  pose proof (parse_owner_name_trace [("provider", VStr "azure")] (Some owner)
                (t ++ environment_reads)) as E.
  destruct (app_service.parse_owner_name _ _ []) as [[r|e] t0] eqn:E0;
    cbn [fst] in E.
  - erewrite bind_Ret; cycle 1.
    { erewrite try_Ret; cycle 1.
      { by erewrite bind_Ret by apply E. }
      reflexivity. }
    reflexivity.
  - apply parse_owner_name_Raise in E0 as [_ He].
    erewrite bind_Ret; cycle 1.
    { erewrite try_Raise by (by erewrite bind_Raise by apply E).
      by rewrite He. }
    reflexivity.
Qed.

(** Either the probe gives up on the variables, or all four are set and
    non-empty. *)
Lemma app_service_cases w t :
  azure_app_service_metadata w t = (Ret [], t ++ environment_reads)
  \/ exists owner i s g,
       environ w !! "WEBSITE_OWNER_NAME" = Some owner /\
       environ w !! "WEBSITE_INSTANCE_ID" = Some i /\
       environ w !! "WEBSITE_SITE_NAME" = Some s /\
       environ w !! "WEBSITE_RESOURCE_GROUP" = Some g /\
       owner <> "" /\ i <> "" /\ s <> "" /\ g <> "".
Proof.
  rewrite app_service_reads. cbv zeta.
  destruct (environ w !! "WEBSITE_OWNER_NAME") as [[|??]|];
    destruct (environ w !! "WEBSITE_INSTANCE_ID") as [[|??]|];
    destruct (environ w !! "WEBSITE_SITE_NAME") as [[|??]|];
    destruct (environ w !! "WEBSITE_RESOURCE_GROUP") as [[|??]|];
    try (by left).
  right. by eexists _, _, _, _.
Qed.

(** The probe always returns, having read the four variables. *)
Lemma app_service_returns w t :
  exists m, azure_app_service_metadata w t = (Ret m, t ++ environment_reads).
Proof.
  destruct (app_service_cases w t)
    as [?|(owner & i & s & g & Eo & Ei & Es & Eg & Ho & Hi & Hs & Hg)].
  - by eexists.
  - rewrite (app_service_set w t _ _ _ _ Eo Ei Es Eg Ho Hi Hs Hg). by eexists.
Qed.

(** The parse of a name with one [+] goes on with what follows it. *)
Lemma parse_owner_name_rest ret0 account rest t r t' :
  app_service.parse_owner_name ret0 (Some (account +:+ "+" +:+ rest)) t = (Ret r, t') ->
  exists prefix suffix head region,
    Str.split "webspace" rest = [prefix; suffix] /\
    Str.rsplit1 "-" prefix = [head; region].
Proof.
  intros (_ & account' & rest' & prefix & suffix & head & region
            & H1 & H2 & H3 & _)%parse_owner_name_Ret.
  apply StrFacts.split_pair in H1 as [H1 Hno]; [|done].
  apply StrFacts.partition_char_unique in H1 as [-> ->]; [|done].
  by exists prefix, suffix, head, region.
Qed.

(** What [azure_app_service_metadata] returns is empty or normalized. *)
Theorem azure_app_service_metadata_shape w t m t' :
  azure_app_service_metadata w t = (Ret m, t') -> cloud_metadata_shape m = true.
Proof.
  destruct (app_service_cases w t)
    as [->|(owner & i & s & g & Eo & Ei & Es & Eg & Ho & Hi & Hs & Hg)].
  - by intros [= <- _].
  - rewrite (app_service_set w t _ _ _ _ Eo Ei Es Eg Ho Hi Hs Hg).
    intros [= <- _]. destruct (negb _); [done|].
    destruct (app_service.parse_owner_name _ _ _) as [[r|e] t0] eqn:Ep; [|done].
    by apply parse_owner_name_Ret
      in Ep as (_ & ? & ? & ? & ? & ? & ? & _ & _ & _ & ->).
Qed.

(** C7.  With [WEBSITE_OWNER_NAME] set to
    [sub123+rg1-westus2webspace9f8] and the three other variables set and
    non-empty, [azure_app_service_metadata] returns provider [azure],
    account id [sub123], region [westus2], and the instance id, the site
    name and the resource group of the environment. *)
Theorem app_service_example w t instance_id site_name resource_group :
  environ w !! "WEBSITE_OWNER_NAME" = Some "sub123+rg1-westus2webspace9f8" ->
  environ w !! "WEBSITE_INSTANCE_ID" = Some instance_id ->
  environ w !! "WEBSITE_SITE_NAME" = Some site_name ->
  environ w !! "WEBSITE_RESOURCE_GROUP" = Some resource_group ->
  instance_id <> "" -> site_name <> "" -> resource_group <> "" ->
  azure_app_service_metadata w t
  = (Ret [("provider", VStr "azure");
          ("account", VDict [("id", VStr "sub123")]);
          ("region", VStr "westus2");
          ("instance", VDict [("id", VStr instance_id);
                              ("name", VStr site_name)]);
          ("project", VDict [("name", VStr resource_group)])],
     t ++ environment_reads).
Proof.
  intros Eo Ei Es Eg Hi Hs Hg.
  by rewrite (app_service_set w t _ _ _ _ Eo Ei Es Eg ltac:(done) Hi Hs Hg).
Qed.

Lemma app_service_example_witness :
  azure_app_service_metadata (app_service_world "sub123+rg1-westus2webspace9f8") []
  = (Ret [("provider", VStr "azure");
          ("account", VDict [("id", VStr "sub123")]);
          ("region", VStr "westus2");
          ("instance", VDict [("id", VStr "5f3c"); ("name", VStr "my-site")]);
          ("project", VDict [("name", VStr "rg1")])],
     environment_reads).
Proof.
  apply (app_service_example (app_service_world "sub123+rg1-westus2webspace9f8") []
           "5f3c" "my-site" "rg1"); done.
Defined.

(** C8.  [azure_app_service_metadata] returns the empty mapping, and does
    not raise, when one of the four variables is unset or empty, when
    [WEBSITE_OWNER_NAME] has no [+], when what follows the [+] has no
    [webspace], or when what lies between the two has no [-]. *)
Theorem app_service_undetectable w t :
  undetectable (environ w) ->
  azure_app_service_metadata w t = (Ret [], t ++ environment_reads).
Proof.
  intros H.
  destruct (app_service_cases w t)
    as [?|(owner & i & s & g & Eo & Ei & Es & Eg & Ho & Hi & Hs & Hg)]; [done|].
  rewrite (app_service_set w t _ _ _ _ Eo Ei Es Eg Ho Hi Hs Hg).
  destruct H as [name Hin E|name Hin E|owner' E Hplus
                |account rest E Hws|account prefix suffix E Hdash].
  - unfold WEBSITE_VARIABLES in Hin. set_unfold in Hin.
    destruct Hin as [->|[->|[->|[->|[]]]]]; congruence.
  - unfold WEBSITE_VARIABLES in Hin. set_unfold in Hin.
    destruct Hin as [->|[->|[->|[->|[]]]]]; congruence.
  - rewrite Eo in E. injection E as <-. by rewrite Hplus.
  - rewrite Eo in E. injection E as ->.
    destruct (Str.contains "+" _); [|done]. cbn [negb].
    destruct (app_service.parse_owner_name _ _ _) as [[r|e] t0] eqn:Ep; [|done].
    apply parse_owner_name_rest in Ep as (p & q & _ & _ & Hsplit & _).
    by rewrite (StrFacts.split_none _ _ Hws) in Hsplit.
  - rewrite Eo in E. injection E as ->.
    destruct (Str.contains "+" _); [|done]. cbn [negb].
    destruct (app_service.parse_owner_name _ _ _) as [[r|e] t0] eqn:Ep; [|done].
    apply parse_owner_name_rest in Ep as (p & q & head & region & Hsplit & Hr).
    apply StrFacts.split_pair in Hsplit as [Hsplit _]; [|done].
    destruct (StrFacts.partition_leftmost "webspace" prefix suffix)
      as (p' & r' & a' & E' & ->).
    rewrite Hsplit in E'. injection E' as <- <-.
    apply StrFacts.contains_false_app_l in Hdash.
    unfold Str.rsplit1 in Hr. by rewrite (StrFacts.rpartition_None _ _ Hdash) in Hr.
Qed.

Lemma app_service_undetectable_witness :
  azure_app_service_metadata offline_world [] = (Ret [], environment_reads)
  /\ azure_app_service_metadata (app_service_world "") []
     = (Ret [], environment_reads)
  /\ azure_app_service_metadata (app_service_world "sub123rg1-westus2webspace9f8") []
     = (Ret [], environment_reads)
  /\ azure_app_service_metadata (app_service_world "sub123+rg1-westus2") []
     = (Ret [], environment_reads)
  /\ azure_app_service_metadata (app_service_world "sub123+rg1westus2webspace9f8") []
     = (Ret [], environment_reads).
Proof.
  split; [|split; [|split; [|split]]].
  - apply (app_service_undetectable offline_world []).
    apply (variable_unset _ "WEBSITE_SITE_NAME"); [|reflexivity].
    unfold WEBSITE_VARIABLES. set_solver.
  - apply (app_service_undetectable (app_service_world "") []).
    apply (variable_empty _ "WEBSITE_OWNER_NAME"); [|reflexivity].
    unfold WEBSITE_VARIABLES. set_solver.
  - apply (app_service_undetectable
             (app_service_world "sub123rg1-westus2webspace9f8") []).
    by apply (plus_absent _ "sub123rg1-westus2webspace9f8").
  - apply (app_service_undetectable (app_service_world "sub123+rg1-westus2") []).
    by apply (webspace_missing _ "sub123" "rg1-westus2").
  - apply (app_service_undetectable
             (app_service_world "sub123+rg1westus2webspace9f8") []).
    by apply (dash_missing _ "sub123" "rg1westus2" "9f8").
Defined.

(** C10.  With the four variables set and non-empty,
    [azure_app_service_metadata] returns the empty mapping when
    [WEBSITE_OWNER_NAME] has two [+], or when what follows its [+] has two
    [webspace]: it unpacks each split into exactly two fields. *)
Theorem app_service_rejects_repeated_delimiters w t owner :
  website_variables_set (environ w) owner ->
  (exists a b c, owner = a +:+ "+" +:+ b +:+ "+" +:+ c)
  \/ (exists account a b c,
        owner = account +:+ "+" +:+ a +:+ "webspace" +:+ b +:+ "webspace" +:+ c) ->
  azure_app_service_metadata w t = (Ret [], t ++ environment_reads).
Proof.
  intros [Eo' _] H.
  destruct (app_service_cases w t)
    as [?|(owner' & i & s & g & Eo & Ei & Es & Eg & Ho & Hi & Hs & Hg)]; [done|].
  rewrite (app_service_set w t _ _ _ _ Eo Ei Es Eg Ho Hi Hs Hg).
  rewrite Eo' in Eo. injection Eo as <-.
  destruct (Str.contains "+" owner); [|done]. cbn [negb].
  destruct (app_service.parse_owner_name _ _ _) as [[r|e] t0] eqn:Ep; [|done].
  exfalso. destruct H as [(a & b & c & ->)|(account & a & b & c & ->)].
  - apply parse_owner_name_Ret in Ep as (_ & ? & ? & ? & ? & ? & ? & H1 & _).
    destruct (StrFacts.split_two_occurrences "+" a b c) as (?&?&?&?&H2); [done|].
    by rewrite H2 in H1.
  - apply parse_owner_name_rest in Ep as (? & ? & ? & ? & H1 & _).
    destruct (StrFacts.split_two_occurrences "webspace" a b c) as (?&?&?&?&H2);
      [done|].
    by rewrite H2 in H1.
Qed.

Lemma app_service_rejects_repeated_delimiters_witness :
  azure_app_service_metadata
    (app_service_world "sub123+rg1-westus2webspace9f8webspace") []
  = (Ret [], environment_reads)
  /\ owner_name_split_once "sub123+rg1-westus2webspace9f8webspace"
     = Some ("sub123", "westus2").
Proof.
  split; [|reflexivity].
  apply (app_service_rejects_repeated_delimiters
           (app_service_world "sub123+rg1-westus2webspace9f8webspace") []
           "sub123+rg1-westus2webspace9f8webspace").
  - split; [reflexivity|]. intros name Hin.
    unfold WEBSITE_VARIABLES in Hin. set_unfold in Hin.
    destruct Hin as [->|[->|[->|[->|[]]]]]; by eexists.
  - right. by exists "sub123", "rg1-westus2", "9f8", "".
Defined.

(** ** [azure_metadata] *)

(** The mapping the [try] block returns is normalized. *)
Lemma azure_probe_shape w t m t' :
  azure.probe w t = (Ret m, t') -> cloud_metadata_shape m = true.
Proof.
  unfold azure.probe. intros H. bind_inv H.
  destruct (negb _); by injection H as <- _.
Qed.

(** What [azure_metadata] returns is empty or normalized. *)
Theorem azure_metadata_shape w t m t' :
  azure_metadata w t = (Ret m, t') -> cloud_metadata_shape m = true.
Proof.
  unfold azure_metadata, try_except.
  destruct (azure.probe w t) as [[m'|e] t1] eqn:E.
  - intros [= <- _]. by eapply azure_probe_shape.
  - destruct (is_Exception e); [|done]. apply azure_app_service_metadata_shape.
Qed.

(** [azure_metadata] lets no [Exception] out. *)
Theorem azure_metadata_catches w t e t' :
  azure_metadata w t = (Raise e, t') -> is_Exception e = false.
Proof.
  unfold azure_metadata, try_except.
  destruct (azure.probe w t) as [[m'|e'] t1]; [done|].
  destruct (is_Exception e') eqn:E; [|by intros [= <- _]].
  by destruct (app_service_returns w t1) as [m ->].
Qed.


Ltac azure_key H d key :=
  destruct (dict_get key d) eqn:?;
  [ erewrite bind_Ret in H by (apply getitem_ok; eassumption)
  | erewrite bind_Raise in H by (apply getitem_missing; eassumption);
    injection H as <- <-;
    eexists; split;
    [ eapply azure_document_failure; eauto;
      intros ? [= <-]; exists key; split; [unfold azure_keys; set_solver|done]
    | by rewrite <- app_assoc ] ].

(** Conversely, every [Exception] out of the [try] block of
    [azure_metadata] is one of the failures of [azure_failure]. *)
Lemma azure_failure_complete w t e t' :
  azure.probe w t = (Raise e, t') -> is_Exception e = true ->
  exists evs, azure_failure w evs /\ t' = t ++ evs.
Proof.
  unfold azure.probe. intros H He.
  destruct (create_connection w "169.254.169.254" 80 100) as [e0|] eqn:Hc.
  { erewrite bind_Raise in H by (apply connect_fails, Hc). injection H as <- <-.
    eexists. split; [by eapply azure_connect_failure|done]. }
  erewrite bind_Ret in H by (apply connect_ok, Hc).
  destruct (urlopen w azure.http azure_request) as [e0|[[text|]]] eqn:Hr.
  { erewrite bind_Raise in H by (apply request_fails, Hr). injection H as <- <-.
    eexists. split; [by eapply azure_request_failure|by rewrite <- app_assoc]. }
  2:{ erewrite bind_Ret in H by (apply request_ok, Hr).
      erewrite bind_Raise in H by reflexivity. injection H as <- <-.
      eexists. split; [by eapply azure_decode_failure|by rewrite <- app_assoc]. }
  erewrite bind_Ret in H by (apply request_ok, Hr).
  erewrite bind_Ret in H by reflexivity.
  destruct (json_decode w text) as [doc|] eqn:Hj.
  2:{ erewrite bind_Raise in H by (apply json_loads_fails, Hj). injection H as <- <-.
      eexists. split; [by eapply azure_json_failure|by rewrite <- app_assoc]. }
  erewrite bind_Ret in H by (apply json_loads_ok, Hj).
  destruct doc as [| | | | | |d];
    try (erewrite bind_Raise in H by reflexivity; injection H as <- <-;
         eexists; split;
         [by eapply azure_document_failure; eauto|by rewrite <- app_assoc]).
  azure_key H d "subscriptionId". azure_key H d "vmId". azure_key H d "name".
  azure_key H d "resourceGroupName". azure_key H d "zone".
  azure_key H d "vmSize". azure_key H d "location".
  erewrite bind_Ret in H by reflexivity. by destruct (negb _).
Qed.



(** C6.  When the [zone] of the document is empty, or falsy in another way,
    the mapping [azure_metadata] returns has no [availability_zone] key,
    and has the six other normalized fields. *)
Theorem azure_empty_zone_omitted w t text d
    subscriptionId vmId name resourceGroupName zone vmSize location :
  create_connection w "169.254.169.254" 80 100 = None ->
  urlopen w azure.http azure_request = body text ->
  json_decode w text = Some (VDict d) ->
  dict_get "subscriptionId" d = Some subscriptionId ->
  dict_get "vmId" d = Some vmId ->
  dict_get "name" d = Some name ->
  dict_get "resourceGroupName" d = Some resourceGroupName ->
  dict_get "zone" d = Some zone ->
  dict_get "vmSize" d = Some vmSize ->
  dict_get "location" d = Some location ->
  truthy zone = false ->
  let m := [("account", VDict [("id", subscriptionId)]);
            ("instance", VDict [("id", vmId); ("name", name)]);
            ("project", VDict [("name", resourceGroupName)]);
            ("machine", VDict [("type", vmSize)]);
            ("provider", VStr "azure");
            ("region", location)] in
  azure_metadata w t
  = (Ret m, t ++ [EConnect "169.254.169.254" 80 100;
                  ERequest azure.http azure_request])
  /\ dict_get "availability_zone" m = None.
Proof.
  intros Hc Hr Hj H1 H2 H3 H4 H5 H6 H7 Hz.
  intros m. split; [|reflexivity]. subst m.
  unfold azure_metadata. erewrite try_Ret; cycle 1.
  { unfold azure.probe.
  erewrite bind_Ret by (apply connect_ok, Hc).
  erewrite bind_Ret by (apply request_ok, Hr).
  erewrite bind_Ret by reflexivity.
  erewrite bind_Ret by (apply json_loads_ok, Hj).
  erewrite bind_Ret by (apply getitem_ok, H1).
  erewrite bind_Ret by (apply getitem_ok, H2).
  erewrite bind_Ret by (apply getitem_ok, H3).
  erewrite bind_Ret by (apply getitem_ok, H4).
  erewrite bind_Ret by (apply getitem_ok, H5).
  erewrite bind_Ret by (apply getitem_ok, H6).
  erewrite bind_Ret by (apply getitem_ok, H7).
  erewrite bind_Ret by reflexivity.
  rewrite Hz. reflexivity. }
  trace_eq.
Qed.

Lemma azure_empty_zone_omitted_witness :
  azure_metadata azure_world []
  = (Ret [("account", VDict [("id", VStr "sub123")]);
          ("instance", VDict [("id", VStr "e11ebedc"); ("name", VStr "vm-1")]);
          ("project", VDict [("name", VStr "rg1")]);
          ("machine", VDict [("type", VStr "Standard_D2s_v3")]);
          ("provider", VStr "azure");
          ("region", VStr "westus2")],
     [EConnect "169.254.169.254" 80 100; ERequest azure.http azure_request]).
Proof.
  exact (proj1 (azure_empty_zone_omitted azure_world [] _ _
                  (VStr "sub123") (VStr "e11ebedc") (VStr "vm-1") (VStr "rg1")
                  (VStr "") (VStr "Standard_D2s_v3") (VStr "westus2")
                  eq_refl eq_refl eq_refl eq_refl eq_refl eq_refl eq_refl
                  eq_refl eq_refl eq_refl eq_refl)).
Defined.

(** ** The probes at work *)

(** With no metadata service and no App Service variable, every probe
    returns the empty mapping. *)
Example nothing_detected_offline :
  fst (aws_metadata offline_world []) = Ret []
  /\ fst (gcp_metadata offline_world []) = Ret []
  /\ fst (azure_metadata offline_world []) = Ret []
  /\ fst (azure_app_service_metadata offline_world []) = Ret [].
Proof. by repeat split. Qed.

(** The IMDSv2 path on a full identity document. *)
Example aws_imdsv2_example :
  fst (aws_metadata aws_imdsv2_world [])
  = Ret [("account", VDict [("id", VStr "123456789012")]);
         ("instance", VDict [("id", VStr "i-0abc")]);
         ("availability_zone", VStr "us-east-1a");
         ("machine", VDict [("type", VStr "t3.micro")]);
         ("provider", VStr "aws");
         ("region", VStr "us-east-1")].
Proof. reflexivity. Qed.

(** On an App Service host the Azure probe fails to connect and returns
    what the environment describes. *)
Example azure_app_service_host_detected :
  fst (azure_metadata azure_app_service_host [])
  = Ret [("provider", VStr "azure");
         ("account", VDict [("id", VStr "sub123")]);
         ("region", VStr "westus2");
         ("instance", VDict [("id", VStr "5f3c"); ("name", VStr "my-site")]);
         ("project", VDict [("name", VStr "rg1")])].
Proof. reflexivity. Qed.

(** The parse of section 4.4 accepts a name with a second [webspace], which
    the probe rejects. *)
Example split_once_accepts_second_webspace :
  owner_name_split_once "sub123+rg1-westus2webspace9f8webspace"
  = Some ("sub123", "westus2")
  /\ fst (azure_app_service_metadata
            (app_service_world "sub123+rg1-westus2webspace9f8webspace") [])
     = Ret [].
Proof. by split. Qed.

(** * Further properties of the probes *)

(** ** More facts on strings *)

Module StrMore.
Import Str StrFacts.

Lemma drop_last_length s :
  String.length (drop_last s) = pred (String.length s).
Proof.
  induction s as [|a s IH]; [done|]. destruct s as [|b s]; [done|].
  cbn [drop_last String.length] in *. by rewrite IH.
Qed.

Lemma drop_last_snoc_inv s :
  s <> "" -> exists c, s = drop_last s +:+ String c "".
Proof.
  induction s as [|a s IH]; [done|]. intros _. destruct s as [|b s].
  - by exists a.
  - destruct IH as [c IH]; [done|]. exists c.
    change (drop_last (String a (String b s)))
      with (String a (drop_last (String b s))).
    by rewrite app_cons, <- IH.
Qed.

(** The cut of [partition] is at the given occurrence when no occurrence
    starts before it. *)
Lemma partition_first sep a b :
  sep <> "" -> contains sep (a +:+ drop_last sep) = false ->
  partition sep (a +:+ sep +:+ b) = Some (a, b).
Proof.
  intros Hsep Hno.
  destruct (partition_leftmost sep a b) as (p & r & a' & E & ->).
  rewrite E. pose proof (partition_Some _ _ _ _ E) as Hs.
  rewrite !app_assoc in Hs. apply (inj (String.app p)) in Hs.
  destruct a' as [|c a'].
  - rewrite app_nil_r. by apply (inj (String.app sep)) in Hs as ->.
  - exfalso. destruct (drop_last_snoc_inv sep Hsep) as [l Hl].
    rewrite Hl in Hs at 1. rewrite <- !app_assoc in Hs.
    rewrite (app_assoc (String c a' +:+ drop_last sep)) in Hs.
    apply app_eq_prefix in Hs as (u & Hu & _).
    + rewrite app_assoc, Hu in Hno.
      by rewrite contains_app in Hno.
    + rewrite app_length, drop_last_length. cbn [String.length].
      destruct sep; [done|]. cbn [String.length]. lia.
Qed.

Lemma rpartition_None_inv sep s :
  sep <> "" -> rpartition sep s = None -> contains sep s = false.
Proof.
  intros Hsep. induction s as [|x s IH]; [by destruct sep|].
  rewrite contains_cons. cbn [rpartition].
  destruct (rpartition sep s) as [[]|]; [done|].
  destruct (strip_prefix sep (String x s)); [done|]. auto.
Qed.

(** Nothing after the cut of [rpartition] holds the separator. *)
Lemma rpartition_char_after c s b r :
  rpartition (String c "") s = Some (b, r) -> contains (String c "") r = false.
Proof.
  revert b. induction s as [|x s IH]; intros b; [done|]. cbn [rpartition].
  destruct (rpartition (String c "") s) as [[b' r']|] eqn:E.
  - intros [= _ <-]. by eapply IH.
  - cbn [strip_prefix]. destruct (Ascii.eqb c x); [|done].
    intros [= _ <-]. by apply rpartition_None_inv.
Qed.

(** Nothing before the cut of [partition] holds the separator. *)
Lemma partition_char_before c s b r :
  partition (String c "") s = Some (b, r) -> contains (String c "") b = false.
Proof.
  revert b. induction s as [|x s IH]; intros b; [done|].
  rewrite partition_cons. cbn [strip_prefix].
  destruct (Ascii.eqb c x) eqn:Ec; [by intros [= <- _]|].
  destruct (partition (String c "") s) as [[b' r']|]; [|done].
  intros [= <- <-]. rewrite contains_cons. cbn [strip_prefix]. rewrite Ec.
  by eapply IH.
Qed.

End StrMore.

(** ** Rules for [raises] *)

Section raises_rules.
Context {A B : Type} (P : exn -> Prop).

Lemma raises_ret (a : A) : raises P (ret a).
Proof. by intros t e t'. Qed.

Lemma raises_raise e : P e -> raises P (@raise A e).
Proof. by intros H t e' t' [= <- _]. Qed.

Lemma raises_bind (m : M A) (k : A -> M B) :
  raises P m -> (forall a, raises P (k a)) -> raises P (bind m k).
Proof.
  intros Hm Hk t e t''. unfold bind.
  destruct (m t) as [[a|e'] t'] eqn:E.
  - apply Hk.
  - intros [= <- _]. by eapply Hm.
Qed.

Lemma raises_try (Q : exn -> Prop) (m : M A) (h : exn -> M A) :
  raises Q m -> (forall e, Q e -> raises P (h e)) -> raises P (try_except m h).
Proof.
  intros Hm Hh t e t''. unfold try_except.
  destruct (m t) as [[a|e'] t'] eqn:E; [done|].
  apply Hh. by eapply Hm.
Qed.

Lemma raises_if (b : bool) (m1 m2 : M A) :
  raises P m1 -> raises P m2 -> raises P (if b then m1 else m2).
Proof. by destruct b. Qed.

Lemma raises_of_option e (o : option A) : P e -> raises P (of_option e o).
Proof. intros H. destruct o; [apply raises_ret|by apply raises_raise]. Qed.

End raises_rules.

Lemma raises_decode (P : exn -> Prop) b :
  P UnicodeDecodeError -> raises P (decode b).
Proof. intros H. destruct b; [apply raises_ret|by apply raises_raise]. Qed.

Lemma raises_json_loads (P : exn -> Prop) w text :
  P JSONDecodeError -> raises P (json_loads w text).
Proof. apply raises_of_option. Qed.

Lemma raises_getitem (P : exn -> Prop) obj key :
  P TypeError -> (forall k, P (KeyError k)) -> raises P (getitem obj key).
Proof.
  intros Ht Hk. destruct obj; try by apply raises_raise.
  by apply raises_of_option.
Qed.

Lemma raises_py_index {A} (P : exn -> Prop) (l : list A) i :
  P IndexError -> raises P (py_index l i).
Proof.
  intros H. unfold py_index. cbv zeta. apply raises_if.
  - by apply raises_of_option.
  - by apply raises_raise.
Qed.

Lemma raises_method_split (P : exn -> Prop) v sep :
  P ValueError -> P AttributeError -> raises P (method_split v sep).
Proof.
  intros Hv Ha. destruct v; try by apply raises_raise.
  cbn. apply raises_if; [by apply raises_raise|apply raises_ret].
Qed.

Lemma raises_method_rsplit1 (P : exn -> Prop) v sep :
  P ValueError -> P AttributeError -> raises P (method_rsplit1 v sep).
Proof.
  intros Hv Ha. destruct v; try by apply raises_raise.
  cbn. apply raises_if; [by apply raises_raise|apply raises_ret].
Qed.

Lemma raises_os_path_split (P : exn -> Prop) v :
  P TypeError -> raises P (os_path_split v).
Proof. intros H. destruct v; try by apply raises_raise. apply raises_ret. Qed.

Lemma raises_response_status (P : exn -> Prop) e :
  P AttributeError -> raises P (response_status e).
Proof.
  intros H. destruct e as [|[]| | | | | | | |];
    first [apply raises_ret|by apply raises_raise].
Qed.

Lemma raises_connect (P : exn -> Prop) w host port ms :
  world_raises P w -> raises P (socket_create_connection w host port ms).
Proof.
  intros (Hc & _ & _). apply raises_bind; [by intros ???|]. intros _.
  destruct (create_connection w host port ms) eqn:E;
    [apply raises_raise; eauto|apply raises_ret].
Qed.

Lemma raises_getaddrinfo (P : exn -> Prop) w host port :
  world_raises P w -> raises P (socket_getaddrinfo w host port).
Proof.
  intros (_ & Ha & _). apply raises_bind; [by intros ???|]. intros _.
  destruct (getaddrinfo w host port) eqn:E;
    [apply raises_raise; eauto|apply raises_ret].
Qed.

Lemma raises_request (P : exn -> Prop) w pool r :
  world_raises P w -> raises P (http_request w pool r).
Proof.
  intros (_ & _ & Hr). apply raises_bind; [by intros ???|]. intros _.
  destruct (urlopen w pool r) eqn:E;
    [apply raises_raise; eauto|apply raises_ret].
Qed.

(** Proves [raises P m] for a computation made of the calls above, given
    [world_raises P w] and that [P] holds of the exceptions of the data
    operations. *)
Ltac raises_steps :=
  repeat first
    [ apply raises_ret
    | apply raises_connect | apply raises_getaddrinfo | apply raises_request
    | apply raises_decode | apply raises_json_loads
    | apply raises_getitem; [|intros ?]
    | apply raises_py_index | apply raises_method_split
    | apply raises_method_rsplit1 | apply raises_os_path_split
    | apply raises_response_status
    | apply raises_raise
    | progress cbv zeta
    | apply raises_bind; [|intros ?]
    | apply raises_if
    | assumption | reflexivity | (right; reflexivity) ].

(** ** [gcp_metadata], in a world that raises [Exception]s only *)

Lemma gcp_probe_raises w :
  world_raises (fun e => is_Exception e = true) w ->
  raises (fun e => is_Exception e = true) (gcp.probe w).
Proof. intros Hw. unfold gcp.probe. raises_steps. Qed.

Lemma azure_probe_raises w :
  world_raises (fun e => is_Exception e = true) w ->
  raises (fun e => is_Exception e = true) (azure.probe w).
Proof. intros Hw. unfold azure.probe. raises_steps. Qed.

Lemma aws_fetch_metadata_raises (P : exn -> Prop) w path headers :
  world_raises P w -> P UnicodeDecodeError ->
  raises P (aws.fetch_metadata w path headers).
Proof. intros Hw Hu. unfold aws.fetch_metadata. raises_steps. Qed.

(** X7.  What [aws_metadata] lets out when the outside calls raise socket
    errors and [HTTPError]s only: an error of reading a response, never a
    socket error or an [HTTPError]. *)
Theorem aws_metadata_raises_data_errors_only w t e t' :
  world_raises (fun e => is_socket_or_HTTPError e = true) w ->
  aws_metadata w t = (Raise e, t') ->
  is_data_error e = true.
Proof.
  intros (Hc & Ha & Hr).
  set (Q := fun e => is_socket_or_HTTPError e = true \/ is_data_error e = true).
  assert (world_raises Q w) as Hw by (repeat split; intros; left; eauto).
  revert t e t'. change (raises (fun e => is_data_error e = true) (aws_metadata w)).
  unfold aws_metadata. apply (raises_try _ Q).
  - apply raises_bind; [by apply raises_connect|]. intros _.
    apply raises_bind; [|intros; apply raises_ret].
    apply (raises_try _ Q).
    + unfold aws.imdsv2. subst Q.
      repeat first [ apply raises_ret
                   | apply raises_request
                   | apply aws_fetch_metadata_raises
                   | apply raises_decode | apply raises_json_loads
                   | apply raises_getitem; [|intros ?]
                   | progress cbv zeta
                   | apply raises_bind; [|intros ?]
                   | assumption | (right; reflexivity) ].
    + intros e He. unfold aws.imdsv1. apply raises_if; [|by apply raises_raise].
      subst Q.
      repeat first [ apply raises_ret
                   | apply raises_response_status
                   | apply aws_fetch_metadata_raises
                   | apply raises_bind; [|intros ?]
                   | apply raises_if
                   | assumption | (right; reflexivity) ].
  - intros e [He|He]; [rewrite He; apply raises_ret|].
    destruct (is_socket_or_HTTPError e); [apply raises_ret|by apply raises_raise].
Qed.

(** ** Computations that make no outside call *)

Lemma emits_py_index {A} P (l : list A) i : emits P (py_index l i).
Proof.
  unfold py_index. cbv zeta.
  apply emits_if; [apply emits_of_option|apply emits_raise].
Qed.

Lemma emits_method_split P v sep : emits P (method_split v sep).
Proof.
  destruct v; try apply emits_raise.
  cbn. apply emits_if; [apply emits_raise|apply emits_ret].
Qed.

Lemma emits_method_rsplit1 P v sep : emits P (method_rsplit1 v sep).
Proof.
  destruct v; try apply emits_raise.
  cbn. apply emits_if; [apply emits_raise|apply emits_ret].
Qed.

Lemma emits_os_path_split P v : emits P (os_path_split v).
Proof. destruct v; try apply emits_raise. apply emits_ret. Qed.

Ltac emits_steps :=
  repeat first
    [ apply emits_ret | apply emits_raise
    | apply emits_decode | apply emits_json_loads | apply emits_getitem
    | apply emits_py_index | apply emits_method_split
    | apply emits_method_rsplit1 | apply emits_os_path_split
    | progress cbv zeta
    | apply emits_bind; [|intros ?]
    | apply emits_if ].

(** A computation that emits nothing leaves the trace as it is. *)
Lemma silent {A} (m : M A) t :
  emits (fun _ => False) m -> exists o, m t = (o, t).
Proof.
  intros H. destruct (H t) as ([|ev evs] & E & HF).
  - destruct (m t) as [o t']. cbn in E. subst. rewrite app_nil_r. by eexists.
  - by inversion HF.
Qed.

(** ** [gcp_metadata]: calls and results *)

(** The [try] block stops after the resolution when it fails, and makes
    the one request otherwise. *)
Lemma gcp_probe_calls w t :
  (exists e, getaddrinfo w "metadata.google.internal" 80 = Some e
             /\ gcp.probe w t
                = (Raise e, t ++ [EGetAddrInfo "metadata.google.internal" 80]))
  \/ (getaddrinfo w "metadata.google.internal" 80 = None
      /\ exists o, gcp.probe w t
                   = (o, t ++ [EGetAddrInfo "metadata.google.internal" 80;
                               ERequest gcp.http gcp_request])).
Proof.
  unfold gcp.probe.
  destruct (getaddrinfo w "metadata.google.internal" 80) as [e|] eqn:Ha.
  { left. exists e. split; [done|].
    by erewrite bind_Raise by (apply resolve_fails, Ha). }
  right. split; [done|]. erewrite bind_Ret by (apply resolve_ok, Ha).
  destruct (urlopen w gcp.http gcp_request) as [e|response] eqn:Hr.
  { exists (Raise e). erewrite bind_Raise by (apply request_fails, Hr).
    by rewrite <- app_assoc. }
  erewrite bind_Ret by (apply request_ok, Hr). rewrite <- app_assoc.
  apply silent. emits_steps.
Qed.

(** X10.  [gcp_metadata] returns the empty mapping, without any request,
    when the name of the metadata server does not resolve. *)
Theorem gcp_resolution_failure w t e :
  getaddrinfo w "metadata.google.internal" 80 = Some e ->
  is_Exception e = true ->
  gcp_metadata w t
  = (Ret [], t ++ [EGetAddrInfo "metadata.google.internal" 80]).
Proof.
  intros Ha He. unfold gcp_metadata.
  erewrite try_Raise
    by (unfold gcp.probe; by erewrite bind_Raise by (apply resolve_fails, Ha)).
  by rewrite He.
Qed.

Lemma gcp_resolution_failure_witness :
  gcp_metadata offline_world []
  = (Ret [], [EGetAddrInfo "metadata.google.internal" 80]).
Proof. by apply (gcp_resolution_failure offline_world [] OSError). Defined.

(** X11.  In a world that raises [Exception]s only, [gcp_metadata] always
    returns: a mapping that is empty or normalized, after the resolution
    and at most one request. *)
Theorem gcp_metadata_returns w t :
  world_raises (fun e => is_Exception e = true) w ->
  exists m evs,
    gcp_metadata w t = (Ret m, t ++ evs)
    /\ cloud_metadata_shape m = true
    /\ (evs = [EGetAddrInfo "metadata.google.internal" 80]
        \/ evs = [EGetAddrInfo "metadata.google.internal" 80;
                  ERequest gcp.http gcp_request]).
Proof.
  intros Hw. pose proof (gcp_probe_raises w Hw t) as Hraises.
  unfold gcp_metadata.
  destruct (gcp_probe_calls w t) as [(e & _ & E)|(_ & [m|e] & E)].
  - erewrite try_Raise by apply E. rewrite (Hraises _ _ E). by eauto 10.
  - erewrite try_Ret by apply E. apply gcp_probe_shape in E. by eauto 10.
  - erewrite try_Raise by apply E. rewrite (Hraises _ _ E). by eauto 10.
Qed.

(** The worlds of the examples raise what their tables hold, and
    [HTTPError] for an unknown URL. *)
Lemma example_world_raises (P : exn -> Prop) connect resolve table env :
  (forall e, connect = Some e -> P e) ->
  (forall e, resolve = Some e -> P e) ->
  Forall (fun entry => forall e, entry.2 = inl e -> P e) table ->
  P (HTTPError None) ->
  world_raises P (example_world connect resolve table env).
Proof.
  intros Hc Ha Ht Hn. repeat split; cbn; [by eauto..|].
  intros _ r e. induction Ht as [|[u reply] table Hreply _ IH]; cbn.
  - by intros [= <-].
  - destruct (String.eqb (req_url r) u); [apply Hreply|apply IH].
Qed.

Lemma gcp_metadata_returns_witness :
  exists m evs,
    gcp_metadata gcp_world [] = (Ret m, [] ++ evs)
    /\ cloud_metadata_shape m = true
    /\ (evs = [EGetAddrInfo "metadata.google.internal" 80]
        \/ evs = [EGetAddrInfo "metadata.google.internal" 80;
                  ERequest gcp.http gcp_request]).
Proof.
  apply (gcp_metadata_returns gcp_world []).
  apply example_world_raises; [done|done| |done].
  by repeat constructor.
Defined.

(** ** [azure_metadata]: calls and results *)

Lemma azure_probe_calls w t :
  (exists e, azure.probe w t
             = (Raise e, t ++ [EConnect "169.254.169.254" 80 100]))
  \/ (exists e, azure.probe w t
                = (Raise e, t ++ [EConnect "169.254.169.254" 80 100;
                                  ERequest azure.http azure_request]))
  \/ (exists m, azure.probe w t
                = (Ret m, t ++ [EConnect "169.254.169.254" 80 100;
                                ERequest azure.http azure_request])).
Proof.
  unfold azure.probe.
  destruct (create_connection w "169.254.169.254" 80 100) as [e|] eqn:Hc.
  { left. exists e. by erewrite bind_Raise by (apply connect_fails, Hc). }
  right. erewrite bind_Ret by (apply connect_ok, Hc).
  destruct (urlopen w azure.http azure_request) as [e|response] eqn:Hr.
  { left. exists e. erewrite bind_Raise by (apply request_fails, Hr).
    by rewrite <- app_assoc. }
  erewrite bind_Ret by (apply request_ok, Hr). rewrite <- app_assoc.
  match goal with
  | |- context [bind ?m ?k ?t0] =>
      destruct (silent (bind m k) t0) as [[m'|e] ->]; [emits_steps|..]
  end; eauto.
Qed.

(** X13.  In a world that raises [Exception]s only, [azure_metadata]
    always returns a mapping that is empty or normalized, after the
    connection, at most one request and, when it reads the environment,
    the four reads at the end. *)
Theorem azure_metadata_returns w t :
  world_raises (fun e => is_Exception e = true) w ->
  exists m evs,
    azure_metadata w t = (Ret m, t ++ evs)
    /\ cloud_metadata_shape m = true
    /\ (evs = [EConnect "169.254.169.254" 80 100;
               ERequest azure.http azure_request]
        \/ evs = [EConnect "169.254.169.254" 80 100] ++ environment_reads
        \/ evs = [EConnect "169.254.169.254" 80 100;
                  ERequest azure.http azure_request] ++ environment_reads).
Proof.
  intros Hw. pose proof (azure_probe_raises w Hw t) as Hraises.
  assert (forall e evs, azure.probe w t = (Raise e, t ++ evs) ->
            exists m, azure_metadata w t = (Ret m, t ++ evs ++ environment_reads)
                      /\ cloud_metadata_shape m = true) as Hfallback.
  { intros e evs E. unfold azure_metadata.
    erewrite try_Raise by apply E. rewrite (Hraises _ _ E).
    destruct (app_service_returns w (t ++ evs)) as [m Hm].
    exists m. rewrite app_assoc. split; [done|].
    by eapply azure_app_service_metadata_shape. }
  destruct (azure_probe_calls w t) as [[e E]|[[e E]|[m E]]].
  - destruct (Hfallback _ _ E) as (m & ? & ?). by eauto 10.
  - destruct (Hfallback _ _ E) as (m & ? & ?). by eauto 10.
  - exists m, [EConnect "169.254.169.254" 80 100;
               ERequest azure.http azure_request].
    split; [|split; [by eapply azure_probe_shape|by left]].
    unfold azure_metadata. by erewrite try_Ret by apply E.
Qed.

Lemma azure_metadata_returns_witness :
  exists m evs,
    azure_metadata azure_app_service_host [] = (Ret m, [] ++ evs)
    /\ cloud_metadata_shape m = true
    /\ (evs = [EConnect "169.254.169.254" 80 100;
               ERequest azure.http azure_request]
        \/ evs = [EConnect "169.254.169.254" 80 100] ++ environment_reads
        \/ evs = [EConnect "169.254.169.254" 80 100;
                  ERequest azure.http azure_request] ++ environment_reads).
Proof.
  apply (azure_metadata_returns azure_app_service_host []).
  apply example_world_raises; [by intros e [= <-]..| |done].
  by constructor.
Defined.

(** X12.  With a [zone] that is not falsy, [azure_metadata] returns the
    seven normalized fields, [availability_zone] among them, and does not
    read the environment. *)
Theorem azure_zone_kept w t text d
    subscriptionId vmId name resourceGroupName zone vmSize location :
  create_connection w "169.254.169.254" 80 100 = None ->
  urlopen w azure.http azure_request = body text ->
  json_decode w text = Some (VDict d) ->
  dict_get "subscriptionId" d = Some subscriptionId ->
  dict_get "vmId" d = Some vmId ->
  dict_get "name" d = Some name ->
  dict_get "resourceGroupName" d = Some resourceGroupName ->
  dict_get "zone" d = Some zone ->
  dict_get "vmSize" d = Some vmSize ->
  dict_get "location" d = Some location ->
  truthy zone = true ->
  azure_metadata w t
  = (Ret [("account", VDict [("id", subscriptionId)]);
          ("instance", VDict [("id", vmId); ("name", name)]);
          ("project", VDict [("name", resourceGroupName)]);
          ("availability_zone", zone);
          ("machine", VDict [("type", vmSize)]);
          ("provider", VStr "azure");
          ("region", location)],
     t ++ [EConnect "169.254.169.254" 80 100;
           ERequest azure.http azure_request]).
Proof.
  intros Hc Hr Hj H1 H2 H3 H4 H5 H6 H7 Hz.
  unfold azure_metadata. erewrite try_Ret; cycle 1.
  { unfold azure.probe.
    erewrite bind_Ret by (apply connect_ok, Hc).
    erewrite bind_Ret by (apply request_ok, Hr).
    erewrite bind_Ret by reflexivity.
    erewrite bind_Ret by (apply json_loads_ok, Hj).
    erewrite bind_Ret by (apply getitem_ok, H1).
    erewrite bind_Ret by (apply getitem_ok, H2).
    erewrite bind_Ret by (apply getitem_ok, H3).
    erewrite bind_Ret by (apply getitem_ok, H4).
    erewrite bind_Ret by (apply getitem_ok, H5).
    erewrite bind_Ret by (apply getitem_ok, H6).
    erewrite bind_Ret by (apply getitem_ok, H7).
    erewrite bind_Ret by reflexivity.
    rewrite Hz. reflexivity. }
  trace_eq.
Qed.

Lemma azure_zone_kept_witness :
  azure_metadata azure_zone_world []
  = (Ret [("account", VDict [("id", VStr "sub123")]);
          ("instance", VDict [("id", VStr "e11ebedc"); ("name", VStr "vm-1")]);
          ("project", VDict [("name", VStr "rg1")]);
          ("availability_zone", VStr "2");
          ("machine", VDict [("type", VStr "Standard_D2s_v3")]);
          ("provider", VStr "azure");
          ("region", VStr "westus2")],
     [EConnect "169.254.169.254" 80 100; ERequest azure.http azure_request]).
Proof.
  exact (azure_zone_kept azure_zone_world [] _ _
           (VStr "sub123") (VStr "e11ebedc") (VStr "vm-1") (VStr "rg1")
           (VStr "2") (VStr "Standard_D2s_v3") (VStr "westus2")
           eq_refl eq_refl eq_refl eq_refl eq_refl eq_refl eq_refl
           eq_refl eq_refl eq_refl eq_refl).
Defined.

(** ** [aws_metadata]: the paths through the probe *)

(** X9.  Whatever the answer, [fetch_metadata] makes exactly one request:
    a [GET] of the path under the metadata URL, with the headers it was
    given. *)
Theorem fetch_metadata_one_request w path headers t :
  snd (aws.fetch_metadata w path headers t)
  = t ++ [ERequest aws.http (aws_get path headers)].
Proof.
  destruct (urlopen w aws.http (aws_get path headers)) as [e|[[text|]]] eqn:E.
  - by rewrite (fetch_metadata_fails _ _ _ _ _ E).
  - by rewrite (fetch_metadata_ok _ _ _ _ _ E).
  - by rewrite (fetch_metadata_undecodable _ _ _ _ E).
Qed.

(** X1.  With the token granted and a full identity document,
    [aws_metadata] returns the normalized mapping after three calls: the
    connection, the token [PUT] and the [GET] of the document, which
    carries the token. *)
Theorem aws_imdsv2_normalization w t token text d
    accountId instanceId availabilityZone instanceType region :
  create_connection w "169.254.169.254" 80 100 = None ->
  urlopen w aws.http aws_token_request = body token ->
  urlopen w aws.http (aws_document_request token) = body text ->
  json_decode w text = Some (VDict d) ->
  dict_get "accountId" d = Some accountId ->
  dict_get "instanceId" d = Some instanceId ->
  dict_get "availabilityZone" d = Some availabilityZone ->
  dict_get "instanceType" d = Some instanceType ->
  dict_get "region" d = Some region ->
  aws_metadata w t
  = (Ret [("account", VDict [("id", accountId)]);
          ("instance", VDict [("id", instanceId)]);
          ("availability_zone", availabilityZone);
          ("machine", VDict [("type", instanceType)]);
          ("provider", VStr "aws");
          ("region", region)],
     t ++ [EConnect "169.254.169.254" 80 100;
           ERequest aws.http aws_token_request;
           ERequest aws.http (aws_document_request token)]).
Proof.
  intros Hc Ht Hd Hj H1 H2 H3 H4 H5.
  unfold aws_metadata. erewrite try_Ret; cycle 1.
  { erewrite bind_Ret by (apply connect_ok, Hc).
    erewrite bind_Ret; [reflexivity|].
    erewrite try_Ret; [reflexivity|].
    unfold aws.imdsv2.
    erewrite bind_Ret by (apply request_ok, Ht).
    erewrite bind_Ret by reflexivity.
    erewrite bind_Ret by (apply fetch_metadata_ok, Hd).
    erewrite bind_Ret by (apply json_loads_ok, Hj).
    erewrite bind_Ret by (apply getitem_ok, H1).
    erewrite bind_Ret by (apply getitem_ok, H2).
    erewrite bind_Ret by (apply getitem_ok, H3).
    erewrite bind_Ret by (apply getitem_ok, H4).
    erewrite bind_Ret by (apply getitem_ok, H5).
    reflexivity. }
  trace_eq.
Qed.

Lemma aws_imdsv2_normalization_witness :
  aws_metadata aws_imdsv2_world []
  = (Ret [("account", VDict [("id", VStr "123456789012")]);
          ("instance", VDict [("id", VStr "i-0abc")]);
          ("availability_zone", VStr "us-east-1a");
          ("machine", VDict [("type", VStr "t3.micro")]);
          ("provider", VStr "aws");
          ("region", VStr "us-east-1")],
     [EConnect "169.254.169.254" 80 100;
      ERequest aws.http aws_token_request;
      ERequest aws.http (aws_document_request "token")]).
Proof.
  exact (aws_imdsv2_normalization aws_imdsv2_world [] "token" _ _
           (VStr "123456789012") (VStr "i-0abc") (VStr "us-east-1a")
           (VStr "t3.micro") (VStr "us-east-1")
           eq_refl eq_refl eq_refl eq_refl eq_refl eq_refl eq_refl eq_refl
           eq_refl).
Defined.

Lemma aws_connect_failure_witness :
  aws_metadata offline_world [] = (Ret [], [EConnect "169.254.169.254" 80 100]).
Proof. by apply (aws_connect_failure offline_world [] OSError). Defined.


Lemma aws_metadata_results_witness :
  [("accountId", VStr "123456789012"); ("instanceId", VStr "i-0abc");
   ("instanceType", VStr "t3.micro"); ("availabilityZone", VStr "us-east-1a");
   ("region", VStr "us-east-1")] = ([] : dict)
  \/ cloud_metadata_shape
       [("accountId", VStr "123456789012"); ("instanceId", VStr "i-0abc");
        ("instanceType", VStr "t3.micro"); ("availabilityZone", VStr "us-east-1a");
        ("region", VStr "us-east-1")] = true
  \/ exists account_id instance_id instance_type availability_zone,
       [("accountId", VStr "123456789012"); ("instanceId", VStr "i-0abc");
        ("instanceType", VStr "t3.micro"); ("availabilityZone", VStr "us-east-1a");
        ("region", VStr "us-east-1")]
       = [("accountId", VStr account_id);
          ("instanceId", VStr instance_id);
          ("instanceType", VStr instance_type);
          ("availabilityZone", VStr availability_zone);
          ("region", VStr (Str.drop_last availability_zone))].
Proof.
  by apply (aws_metadata_results aws_imdsv1_world [] _
              (snd (aws_metadata aws_imdsv1_world []))).
Defined.

Lemma aws_metadata_raises_data_errors_only_witness :
  fst (aws_metadata aws_malformed_document_world []) = Raise JSONDecodeError
  /\ is_data_error JSONDecodeError = true.
Proof.
  split; [reflexivity|].
  apply (aws_metadata_raises_data_errors_only aws_malformed_document_world []
           JSONDecodeError (snd (aws_metadata aws_malformed_document_world []))).
  - apply example_world_raises; [done|done| |done]. by repeat constructor.
  - reflexivity.
Defined.






(** ** [azure_app_service_metadata]: what it returns *)

(** X14.  [azure_app_service_metadata] never raises and never touches the
    network: it returns, after its four reads of the environment, a mapping
    that is empty or normalized. *)
Theorem azure_app_service_metadata_returns w t :
  exists m,
    azure_app_service_metadata w t = (Ret m, t ++ environment_reads)
    /\ cloud_metadata_shape m = true.
Proof.
  destruct (app_service_returns w t) as [m Hm]. exists m. split; [done|].
  by eapply azure_app_service_metadata_shape.
Qed.

(** X15.  A well-formed owner name,
    [{account}+{group}-{region}webspace{suffix}], is parsed into its
    account and its region: no [+] in the account or after the first one,
    no [-] in the region, and [webspace] starting nowhere before or after
    its place. *)
Theorem app_service_parses w t account group region suffix
    instance_id site_name resource_group :
  environ w !! "WEBSITE_OWNER_NAME"
  = Some (account +:+ "+" +:+ (group +:+ "-" +:+ region) +:+ "webspace" +:+ suffix) ->
  environ w !! "WEBSITE_INSTANCE_ID" = Some instance_id ->
  environ w !! "WEBSITE_SITE_NAME" = Some site_name ->
  environ w !! "WEBSITE_RESOURCE_GROUP" = Some resource_group ->
  instance_id <> "" -> site_name <> "" -> resource_group <> "" ->
  Str.contains "+" account = false ->
  Str.contains "+" ((group +:+ "-" +:+ region) +:+ "webspace" +:+ suffix) = false ->
  Str.contains "webspace" ((group +:+ "-" +:+ region) +:+ "webspac") = false ->
  Str.contains "webspace" suffix = false ->
  Str.contains "-" region = false ->
  azure_app_service_metadata w t
  = (Ret [("provider", VStr "azure");
          ("account", VDict [("id", VStr account)]);
          ("region", VStr region);
          ("instance", VDict [("id", VStr instance_id);
                              ("name", VStr site_name)]);
          ("project", VDict [("name", VStr resource_group)])],
     t ++ environment_reads).
Proof.
  intros Eo Ei Es Eg Hi Hs Hg Hacc Hrest Hws Hsuffix Hregion.
  rewrite (app_service_set w t _ _ _ _ Eo Ei Es Eg); [|by destruct account|done..].
  assert (Str.split "+" (account +:+ "+" +:+ (group +:+ "-" +:+ region)
                           +:+ "webspace" +:+ suffix)
          = [account; (group +:+ "-" +:+ region) +:+ "webspace" +:+ suffix]) as H1.
  { erewrite StrFacts.split_cons; [|done|by apply (StrFacts.partition_char "+")].
    by rewrite (StrFacts.split_none _ _ Hrest). }
  assert (Str.split "webspace" ((group +:+ "-" +:+ region) +:+ "webspace" +:+ suffix)
          = [group +:+ "-" +:+ region; suffix]) as H2.
  { erewrite StrFacts.split_cons; [|done|by apply StrMore.partition_first].
    by rewrite (StrFacts.split_none _ _ Hsuffix). }
  assert (Str.rsplit1 "-" (group +:+ "-" +:+ region) = [group; region]) as H3.
  { unfold Str.rsplit1.
    change (group +:+ "-" +:+ region) with (group +:+ String "-"%char region).
    by rewrite (StrFacts.rpartition_char "-" group region Hregion). }
  rewrite StrFacts.contains_app. cbn [negb].
  unfold app_service.parse_owner_name, method_split, method_rsplit1, opt_value.
  cbn [String.eqb Ascii.eqb Bool.eqb].
  erewrite bind_Ret by reflexivity. rewrite H1.
  erewrite bind_Ret by reflexivity. cbn [fst snd].
  erewrite bind_Ret by reflexivity. rewrite H2.
  erewrite bind_Ret by reflexivity. cbn [fst snd].
  erewrite bind_Ret by reflexivity. rewrite H3.
  erewrite bind_Ret by reflexivity. reflexivity.
Qed.

Lemma app_service_parses_witness :
  azure_app_service_metadata (app_service_world "sub123+rg1-westus2webspace9f8") []
  = (Ret [("provider", VStr "azure");
          ("account", VDict [("id", VStr "sub123")]);
          ("region", VStr "westus2");
          ("instance", VDict [("id", VStr "5f3c"); ("name", VStr "my-site")]);
          ("project", VDict [("name", VStr "rg1")])],
     [] ++ environment_reads).
Proof.
  by apply (app_service_parses (app_service_world "sub123+rg1-westus2webspace9f8")
              [] "sub123" "rg1" "westus2" "9f8" "5f3c" "my-site" "rg1").
Defined.

(** X16.  A mapping that [azure_app_service_metadata] returns, when not
    empty, has the five entries of an App Service host: the instance id, the site
    name and the resource group are those of the environment, the account
    id holds no [+] and the region no [-]. *)
Theorem app_service_result w t m t' :
  azure_app_service_metadata w t = (Ret m, t') ->
  m = [] \/
  exists account region,
    m = [("provider", VStr "azure");
         ("account", VDict [("id", VStr account)]);
         ("region", VStr region);
         ("instance",
          VDict [("id", opt_value (environ w !! "WEBSITE_INSTANCE_ID"));
                 ("name", opt_value (environ w !! "WEBSITE_SITE_NAME"))]);
         ("project",
          VDict [("name", opt_value (environ w !! "WEBSITE_RESOURCE_GROUP"))])]
    /\ Str.contains "+" account = false
    /\ Str.contains "-" region = false.
Proof.
  destruct (app_service_cases w t)
    as [->|(owner & i & s & g & Eo & Ei & Es & Eg & Ho & Hi & Hs & Hg)].
  { intros [= <- _]. by left. }
  rewrite (app_service_set w t _ _ _ _ Eo Ei Es Eg Ho Hi Hs Hg).
  intros [= <- _]. destruct (negb _); [by left|].
  destruct (app_service.parse_owner_name _ _ _) as [[r|e] t0] eqn:Ep; [|by left].
  apply parse_owner_name_Ret
    in Ep as (_ & account & rest & prefix & suffix & head & region
                & H1 & _ & H3 & ->).
  right. exists account, region. rewrite Ei, Es, Eg. split; [done|]. split.
  - apply StrFacts.split_pair in H1 as [H1 _]; [|done].
    by eapply StrMore.partition_char_before.
  - unfold Str.rsplit1 in H3.
    destruct (Str.rpartition "-" prefix) as [[b r]|] eqn:E; [|done].
    injection H3 as -> ->. by eapply StrMore.rpartition_char_after.
Qed.

Lemma app_service_result_witness :
  [("provider", VStr "azure");
   ("account", VDict [("id", VStr "sub123")]);
   ("region", VStr "westus2");
   ("instance", VDict [("id", VStr "5f3c"); ("name", VStr "my-site")]);
   ("project", VDict [("name", VStr "rg1")])] = ([] : dict)
  \/ exists account region,
       [("provider", VStr "azure");
        ("account", VDict [("id", VStr "sub123")]);
        ("region", VStr "westus2");
        ("instance", VDict [("id", VStr "5f3c"); ("name", VStr "my-site")]);
        ("project", VDict [("name", VStr "rg1")])]
       = [("provider", VStr "azure");
          ("account", VDict [("id", VStr account)]);
          ("region", VStr region);
          ("instance",
           VDict [("id", opt_value (environ azure_app_service_host
                                      !! "WEBSITE_INSTANCE_ID"));
                  ("name", opt_value (environ azure_app_service_host
                                        !! "WEBSITE_SITE_NAME"))]);
          ("project",
           VDict [("name", opt_value (environ azure_app_service_host
                                        !! "WEBSITE_RESOURCE_GROUP"))])]
       /\ Str.contains "+" account = false
       /\ Str.contains "-" region = false.
Proof.
  by apply (app_service_result azure_app_service_host [] _
              (snd (azure_app_service_metadata azure_app_service_host []))).
Defined.
